(** * BootstrapHelper: images, landmark CSVs and their synchronisation

    A shallow embedding of [boostrap_helper.py].  The helper walks a data set
    laid out as [<data_set_folder>/<pose class>/<image>], writes one output
    image per input image below [<per_level_out_folder>/<pose class>/], one
    CSV per pose class below [<csvs_out_folder>/], and offers two clean-up
    operations on those two trees ([align_images_and_csvs] and
    [remove_outliers]).

    The three directory trees are finite maps; the methods are programs in a
    state monad over them whose result is either a normal return or a raised
    Python exception.  The state reached when an exception is raised is kept,
    because the Python code does not roll anything back. *)

From Stdlib Require Import ZArith Ascii String.
From stdpp Require Import gmap strings list sorting pretty.

Local Open Scope Z_scope.

(** ** Names and paths *)

(** [str.startswith] *)
Fixpoint startswith (prefix s : string) : bool :=
  match prefix, s with
  | EmptyString, _ => true
  | String a p, String b r => Ascii.eqb a b && startswith p r
  | String _ _, EmptyString => false
  end.

(** The test [not n.startswith('.')] used by the listings of [__init__],
    [bootstrap] and [_print_images_statistics]. *)
Definition hidden (n : string) : bool := startswith "." n.

(** The components of a relative path: the pieces between the separators.
    [components "a/b" = ["a"; "b"]], the empty name has the single empty component,
    [components "./b.jpg" = ["."; "b.jpg"]]. *)
Fixpoint components (s : string) : list string :=
  match s with
  | EmptyString => [EmptyString]
  | String c r =>
      if Ascii.eqb c "/"%char then EmptyString :: components r
      else match components r with
           | [] => [String c EmptyString]
           | x :: xs => String c x :: xs
           end
  end.

(** A name that denotes a directory entry by itself: one component, which is
    neither empty nor one of the two dot entries.  These are the names
    [os.listdir] returns. *)
Definition plain (n : string) : bool :=
  match components n with
  | [c] => negb (String.eqb c EmptyString || String.eqb c "." || String.eqb c "..")
  | _ => false
  end.

(** ** The file system *)

(** A decoded frame: [shape] is [(height, width, 3)], one triple per pixel. *)
Record image := Image {
  height : Z;
  width : Z;
  pixels : list (Z * Z * Z)
}.

(** [cv2.cvtColor] with [COLOR_BGR2RGB] or [COLOR_RGB2BGR]: both exchange the
    first and the third channel. *)
Definition cvtColor (f : image) : image :=
  {| height := height f; width := width f;
     pixels := (λ '(a, b, c), (c, b, a)) <$> pixels f |}.

(** An entry of an output image folder: a file, with the frame it holds, or a
    sub-directory. *)
Inductive entry := File (frame : image) | Dir.

(** A CSV row: its fields. *)
Abbreviation row := (list string) (only parsing).

(** The part of the file system the helper works on.
    - [data_set]: pose class folder -> file name -> what [cv2.imread]
      returns for that file ([None] when it cannot be decoded);
    - [images_out]: pose class -> entries of
      [<per_level_out_folder>/<class>]; no binding: the folder does not exist;
    - [csvs]: pose class -> the rows [csv.reader] yields for
      [<csvs_out_folder>/<class>.csv] (a blank line is the row [[]]); no
      binding: the file does not exist;
    - [landmarks_3d]: pose class -> the annotated frames below
      [pose_landmark_3d_image/<level>/<class>/];
    - [plots]: the samples for which a 3D plot has been saved. *)
Record fs := Fs {
  data_set : gmap string (gmap string (option image));
  images_out : gmap string (gmap string entry);
  csvs : gmap string (list row);
  landmarks_3d : gmap string (gmap string image);
  plots : gset (string * string)
}.

Definition set_images_out (f : gmap string (gmap string entry) → gmap string (gmap string entry))
    (w : fs) : fs :=
  {| data_set := data_set w; images_out := f (images_out w); csvs := csvs w;
     landmarks_3d := landmarks_3d w; plots := plots w |}.

Definition set_csvs (f : gmap string (list row) → gmap string (list row)) (w : fs) : fs :=
  {| data_set := data_set w; images_out := images_out w; csvs := f (csvs w);
     landmarks_3d := landmarks_3d w; plots := plots w |}.

Definition set_landmarks_3d (f : gmap string (gmap string image) → gmap string (gmap string image))
    (w : fs) : fs :=
  {| data_set := data_set w; images_out := images_out w; csvs := csvs w;
     landmarks_3d := f (landmarks_3d w); plots := plots w |}.

Definition set_plots (f : gset (string * string) → gset (string * string)) (w : fs) : fs :=
  {| data_set := data_set w; images_out := images_out w; csvs := csvs w;
     landmarks_3d := landmarks_3d w; plots := f (plots w) |}.

(** ** Programs: state, exceptions *)

Inductive exn :=
  | FileNotFoundError
  | IsADirectoryError
  | NotADirectoryError
  | AssertionError
  | AttributeError
  | IndexError
  | cv2_error.            (* [cv2.error], raised by OpenCV *)

(** How a call ends.  [Unmodelled] is not a Python result: it marks a path
    that leads out of the pose class folder (an absolute image name, a [..]
    that climbs above the folder, a name below one of its sub-directories),
    where what Python does depends on files this model does not hold. *)
Inductive outcome (A : Type) :=
  | Return (a : A)
  | Raise (e : exn)
  | Unmodelled.
Arguments Return {A} a.
Arguments Raise {A} e.
Arguments Unmodelled {A}.

Definition M (A : Type) : Type := fs → fs * outcome A.

Definition ret {A} (a : A) : M A := λ w, (w, Return a).
Definition raise {A} (e : exn) : M A := λ w, (w, Raise e).
Definition bind {A B} (m : M A) (k : A → M B) : M B :=
  λ w, match m w with
       | (w', Return a) => k a w'
       | (w', Raise e) => (w', Raise e)
       | (w', Unmodelled) => (w', Unmodelled)
       end.
Definition modify (f : fs → fs) : M unit := λ w, (f w, Return tt).

Notation "x <- m ;; k" := (bind m (λ x, k))
  (at level 100, m at next level, right associativity).
Notation "m ;;; k" := (bind m (λ _, k))
  (at level 100, right associativity).

(** [for x in l: body(x)] *)
Fixpoint for_each {A} (l : list A) (body : A → M unit) : M unit :=
  match l with
  | [] => ret tt
  | x :: rest => body x ;;; for_each rest body
  end.

(** ** Path lookups inside one pose class folder *)

(** Where a relative path ends when it is followed from a pose class folder. *)
Inductive target :=
  | TFolder               (* the folder itself *)
  | TEntry (c : string)   (* the entry [c] of the folder *)
  | TMissing              (* a component does not exist *)
  | TNotDir               (* a component that is a file is used as a directory *)
  | TBeyond.              (* the path leaves what the model holds *)

Inductive position := AtFolder | AtDir (c : string).

(** Component-wise resolution, as the kernel does it: empty and [.]
    components stay in place, [..] goes to the parent, a name is looked up. *)
Fixpoint walk (dir : gmap string entry) (pos : position) (cs : list string) : target :=
  match cs with
  | [] => match pos with AtFolder => TFolder | AtDir c => TEntry c end
  | x :: rest =>
      if String.eqb x EmptyString || String.eqb x "." then walk dir pos rest
      else if String.eqb x ".." then
        match pos with
        | AtFolder => TBeyond
        | AtDir _ => walk dir AtFolder rest
        end
      else
        match pos with
        | AtDir _ => TBeyond
        | AtFolder =>
            match dir !! x with
            | None => TMissing
            | Some (File _) => match rest with [] => TEntry x | _ => TNotDir end
            | Some Dir => walk dir (AtDir x) rest
            end
        end
  end.

(** [os.path.join(folder, name)] followed from the folder: an absolute [name]
    discards [folder]. *)
Definition resolve (folder : option (gmap string entry)) (name : string) : target :=
  if startswith "/" name then TBeyond
  else match folder with
       | None => TMissing
       | Some dir => walk dir AtFolder (components name)
       end.

(** [os.path.exists(os.path.join(folder, name))] *)
Definition path_exists (folder : option (gmap string entry)) (name : string) : outcome bool :=
  match resolve folder name with
  | TFolder | TEntry _ => Return true
  | TMissing | TNotDir => Return false
  | TBeyond => Unmodelled
  end.

(** [os.remove(os.path.join(folder, name))]: the new entries of the folder. *)
Definition path_remove (folder : option (gmap string entry)) (name : string)
    : outcome (gmap string entry) :=
  match resolve folder name with
  | TFolder => Raise IsADirectoryError
  | TEntry c =>
      match folder with
      | Some dir =>
          match dir !! c with
          | Some (File _) => Return (delete c dir)
          | Some Dir => Raise IsADirectoryError
          | None => Raise FileNotFoundError
          end
      | None => Raise FileNotFoundError
      end
  | TMissing => Raise FileNotFoundError
  | TNotDir => Raise NotADirectoryError
  | TBeyond => Unmodelled
  end.

(** ** File operations of the helper *)

(** [os.path.exists(os.path.join(images_out_folder, image_name))] *)
Definition os_path_exists (cls image_name : string) : M bool :=
  λ w, (w, path_exists (images_out w !! cls) image_name).

(** [os.remove(os.path.join(per_level_out_folder, class_name, name))] *)
Definition os_remove (cls name : string) : M unit :=
  λ w, match path_remove (images_out w !! cls) name with
       | Return dir' => (set_images_out <[cls := dir']> w, Return tt)
       | Raise e => (w, Raise e)
       | Unmodelled => (w, Unmodelled)
       end.

(** [os.remove(os.path.join(images_out_folder, image_name))] for an
    [image_name] that [os.listdir] has returned: the path is that entry. *)
Definition os_remove_entry (cls image_name : string) : M unit :=
  λ w, match images_out w !! cls with
       | None => (w, Raise FileNotFoundError)
       | Some dir =>
           match dir !! image_name with
           | None => (w, Raise FileNotFoundError)
           | Some Dir => (w, Raise IsADirectoryError)
           | Some (File _) =>
               (set_images_out <[cls := delete image_name dir]> w, Return tt)
           end
       end.

(** [os.listdir(images_out_folder)].  Python leaves the order of the listing
    open; the model lists in the enumeration order of the map.  The order
    only decides which files are already gone when a removal raises. *)
Definition os_listdir (cls : string) : M (list string) :=
  λ w, match images_out w !! cls with
       | None => (w, Raise FileNotFoundError)
       | Some dir => (w, Return (fst <$> map_to_list dir))
       end.

(** [open(csv_out_path)] and reading all of it with [csv.reader]. *)
Definition csv_read (cls : string) : M (list row) :=
  λ w, match csvs w !! cls with
       | None => (w, Raise FileNotFoundError)
       | Some rows => (w, Return rows)
       end.

(** [open(csv_out_path, 'w', newline='')]: the file is created or emptied. *)
Definition csv_open_w (cls : string) : M unit :=
  modify (set_csvs <[cls := []]>).

(** [csv_out_writer.writerow(row)]: one more row of the file.  The rows
    [csv.reader] yields for a line just written are the fields written,
    unless a field holds a carriage return: the file is written with
    [newline=''] and read with universal newlines, so that a carriage return
    inside a quoted field is read as a line feed.  The model appends the
    fields as they are, which is exact for fields without carriage return.
    The rows [align_images_and_csvs] writes come out of the reader and hold
    none; the image names [bootstrap] writes come from [os.listdir] and can
    hold one, and what is stated of such a CSV being read again is stated for
    names without carriage return ([no_carriage_return]). *)
Definition writerow (cls : string) (r : row) : M unit :=
  modify (set_csvs (alter (λ rows, rows ++ [r]) cls)).

(** No carriage return in the string: such a field is read back from a CSV
    as it was written. *)
Fixpoint no_carriage_return (s : string) : bool :=
  match s with
  | EmptyString => true
  | String a r => negb (Ascii.eqb a "013"%char) && no_carriage_return r
  end.

(** [row[0]] *)
Definition item0 (r : row) : M string :=
  match r with
  | [] => raise IndexError
  | x :: _ => ret x
  end.

(** ** The helper object *)

Record BootstrapHelper := Helper {
  _pose_class_names : list string
}.

(** The listing of [__init__]: the names of [data_set_folder] that do not
    start with a dot, sorted.  [sorted] compares strings by code point, which
    is the byte-wise order [String.le] on their UTF-8 form; on names that are
    pairwise distinct every sorting algorithm gives the same list. *)
Definition sorted_visible (names : list string) : list string :=
  merge_sort String.le (filter (λ n, hidden n = false) names).

Definition init (w : fs) : BootstrapHelper :=
  {| _pose_class_names := sorted_visible (fst <$> map_to_list (data_set w)) |}.

(** ** align_images_and_csvs *)

(** The reading loop: [if not len(row) == 0: rows.append(row)]. *)
Definition nonempty_rows (all_rows : list row) : list row :=
  filter (λ r, length r ≠ 0%nat) all_rows.

(** The rewriting loop; [image_names_in_csv] is the list built so far. *)
Fixpoint rewrite_rows (cls : string) (rows : list row) (image_names_in_csv : list string)
    : M (list string) :=
  match rows with
  | [] => ret image_names_in_csv
  | r :: rest =>
      image_name <- item0 r ;;
      present <- os_path_exists cls image_name ;;
      if (present : bool) then
        writerow cls r ;;;
        rewrite_rows cls rest (image_names_in_csv ++ [image_name])
      else rewrite_rows cls rest image_names_in_csv
  end.

(** The body of the deletion loop. *)
Definition remove_unless_listed (cls : string) (image_names_in_csv : list string)
    (image_name : string) : M unit :=
  if bool_decide (image_name ∈ image_names_in_csv) then ret tt
  else os_remove_entry cls image_name.

(** The body of the loop over the pose classes. *)
Definition align_class (cls : string) : M unit :=
  all_rows <- csv_read cls ;;
  let rows := nonempty_rows all_rows in
  csv_open_w cls ;;;
  image_names_in_csv <- rewrite_rows cls rows [] ;;
  listing <- os_listdir cls ;;
  for_each listing (remove_unless_listed cls image_names_in_csv).

(** [print_removed_items] and [difficulty_level] only select what is printed. *)
Definition align_images_and_csvs (self : BootstrapHelper) : M unit :=
  for_each (_pose_class_names self) align_class.

(** ** Outliers *)

Record sample := Sample { class_name : string; name : string }.

Record outlier := Outlier {
  outlier_sample : sample;
  detected_class : string;
  all_classes : list string
}.

(** The body of the loop: [image_path] is built from the sample. *)
Definition remove_outlier (o : outlier) : M unit :=
  os_remove (class_name (outlier_sample o)) (name (outlier_sample o)).

Definition remove_outliers (outliers : list outlier) : M unit :=
  for_each outliers remove_outlier.

(** The image of the outlier is not in the output tree. *)
Definition gone (o : outlier) (w : fs) : Prop :=
  path_exists (images_out w !! class_name (outlier_sample o)) (name (outlier_sample o))
    = Return false.

(** ** What one pass of the synchroniser computes *)

(** The image name of a row that has one. *)
Definition row_name (r : row) : string := default EmptyString (head r).

Definition row_names (rows : list row) : list string := row_name <$> rows.

(** The test of the rewriting loop on a row, for a folder. *)
Definition keeps (folder : option (gmap string entry)) (r : row) : bool :=
  match path_exists folder (row_name r) with
  | Return true => true
  | _ => false
  end.

Definition kept_rows (folder : option (gmap string entry)) (all_rows : list row) : list row :=
  filter (λ r, keeps folder r = true) (nonempty_rows all_rows).

Definition kept_files (names : list string) (dir : gmap string entry) : gmap string entry :=
  filter (λ kv, kv.1 ∈ names) dir.

(** The row can be judged inside the model. *)
Definition judged (folder : option (gmap string entry)) (r : row) : Prop :=
  path_exists folder (row_name r) ≠ Unmodelled.

(** The state after a pass over [cls] that returns. *)
Definition aligned (cls : string) (all_rows : list row) (dir : gmap string entry) (w : fs) : fs :=
  let rows := kept_rows (Some dir) all_rows in
  set_images_out <[cls := kept_files (row_names rows) dir]>
    (set_csvs <[cls := rows]> w).

(** ** Bootstrap *)

(** One landmark of the detector, over the detector's numbers. *)
Record landmark (coord : Type) := Landmark {
  lmk_x : coord;
  lmk_y : coord;
  lmk_z : coord
}.
Arguments Landmark {coord} _ _ _.
Arguments lmk_x {coord} _.
Arguments lmk_y {coord} _.
Arguments lmk_z {coord} _.

(** The libraries the helper calls and does not implement: the numbers of
    the landmark array, the pose tracker, the drawing routine and the image
    encoders of OpenCV. *)
Class Collaborators := {
  coord : Type;
  (** [c * frame_width] (or height), stored with [dtype=np.float32] *)
  scale : coord → Z → coord;
  (** [astype(np.str)] on one number *)
  to_str : coord → string;
  (** [pose_tracker.process(frame).pose_landmarks]: [None] when no body is
      found, else [.landmark] *)
  pose_landmarks : image → option (list (landmark coord));
  (** [mp_drawing.draw_landmarks] on a copy of the frame *)
  draw_landmarks : image → list (landmark coord) → image;
  (** Whether [cv2.imwrite] can encode a frame of the helper for the path of
      this image name in the output folder of this class.  It chooses the
      encoder by what follows the last dot of the path, and raises
      [cv2.error] when it finds none that takes the frame.  ([cv2.imread]
      chooses the decoder by the content of the file, so that an image can
      be loaded under a name that cannot be written.) *)
  encodable : string → string → bool;
  (** The frame held by the file that [cv2.imwrite] writes under that path:
      the frame itself for a lossless format, a frame close to it for
      JPEG. *)
  encoded : string → string → image → image
}.

(** [l[:n]] for a Python integer [n]: a negative [n] counts from the end. *)
Definition slice_to {A} (n : Z) (l : list A) : list A :=
  if 0 <=? n then take (Z.to_nat n) l
  else take (Z.to_nat (Z.of_nat (length l) + n)) l.

(** [np.array(a).shape] for a list of coordinate triples. *)
Definition shape {A} (a : list (list A)) : list Z :=
  match a with
  | [] => [0]
  | r :: _ => [Z.of_nat (length a); Z.of_nat (length r)]
  end.

(** [if not os.path.exists(d): os.makedirs(d)] for a class folder of a tree. *)
Definition ensure_dir {V} `{Empty V} (cls : string) (tree : gmap string V) : gmap string V :=
  match tree !! cls with
  | Some _ => tree
  | None => <[cls := ∅]> tree
  end.

(** The frame [cv2.imread] returns for an image of the data set. *)
Definition loaded_frame (w : fs) (cls image_name : string) : option image :=
  data_set w !! cls ≫= λ files, mjoin (files !! image_name).

Section bootstrap.
Context `{Collaborators}.

(** [cv2.imread(os.path.join(images_in_folder, image_name))]: [None], and
    no exception, when the file is missing or cannot be decoded. *)
Definition imread (cls image_name : string) : M (option image) :=
  λ w, (w, Return (loaded_frame w cls image_name)).

(** The entries of a folder after [cv2.imwrite] has been asked to write a
    frame under a name: a sub-directory of that name cannot be opened for
    writing and stays, with nothing written; else the name is that of a
    file with the encoded frame, which replaces a former file. *)
Definition written (cls image_name : string) (frame : image) (dir : gmap string entry)
    : gmap string entry :=
  match dir !! image_name with
  | Some Dir => dir
  | _ => <[image_name := File (encoded cls image_name frame)]> dir
  end.

(** [cv2.imwrite(os.path.join(images_out_folder, image_name), frame)]:
    [cv2.error] when the frame cannot be encoded for that path, and this
    before the file is touched; nothing is written and nothing is raised
    when the file cannot be opened (the folder is missing, the name is that
    of a sub-directory): the call returns [False], which the helper does not
    look at. *)
Definition imwrite_out (cls image_name : string) (frame : image) : M unit :=
  if encodable cls image_name
  then modify (set_images_out (alter (written cls image_name frame) cls))
  else raise cv2_error.

(** [cv2.imwrite] below [pose_landmark_3d_image/<level>/<class>/]; the name
    ends in [.png], a format OpenCV encodes without loss. *)
Definition imwrite_landmarks (cls file_name : string) (frame : image) : M unit :=
  modify (set_landmarks_3d (alter <[file_name := frame]> cls)).

(** Modelled from the spec: [matplot_util.draw_plot_landmarks_save] is not
    among the sources; by the specification it renders the 3D world
    landmarks of the sample to a plot image on a per-class path of its own. *)
Definition draw_plot_landmarks_save (cls image_name : string) : M unit :=
  modify (set_plots (λ p, {[ (cls, image_name) ]} ∪ p)).

(** [[lmk.x * frame_width, lmk.y * frame_height, lmk.z * frame_width]] *)
Definition scaled (frame_height frame_width : Z) (lmk : landmark coord) : list coord :=
  [scale (lmk_x lmk) frame_width; scale (lmk_y lmk) frame_height;
   scale (lmk_z lmk) frame_width].

(** [[image_name] + pose_landmarks.flatten().astype(np.str).tolist()] *)
Definition csv_row (image_name : string) (a : list (list coord)) : row :=
  image_name :: (to_str <$> concat a).

Definition _bootstrap_internal (image_name pose_class_name : string) : M unit :=
  loaded <- imread pose_class_name image_name ;;
  match loaded with
  | None => raise AttributeError          (* [input_frame.shape] on [None] *)
  | Some input_frame =>
      let detected := pose_landmarks (cvtColor input_frame) in
      let output_frame := cvtColor input_frame in
      imwrite_out pose_class_name image_name output_frame ;;;
      match detected with
      | None => ret tt
      | Some lmks =>
          let frame_height := height output_frame in
          let frame_width := width output_frame in
          let a := scaled frame_height frame_width <$> lmks in
          if bool_decide (shape a = [33; 3]) then
            writerow pose_class_name (csv_row image_name a) ;;;
            imwrite_landmarks pose_class_name (image_name +:+ ".png")
              (draw_landmarks input_frame lmks) ;;;
            draw_plot_landmarks_save pose_class_name image_name
          else raise AssertionError
      end
  end.

(** [os.listdir(images_in_folder)] *)
Definition listdir_in (cls : string) : M (list string) :=
  λ w, match data_set w !! cls with
       | None => (w, Raise FileNotFoundError)
       | Some files => (w, Return (fst <$> map_to_list files))
       end.

(** The image names one class is bootstrapped on, from the listing. *)
Definition image_names_of (per_pose_class_limit : option Z) (listing : list string)
    : list string :=
  let image_names := sorted_visible listing in
  match per_pose_class_limit with
  | Some n => slice_to n image_names
  | None => image_names
  end.

(** The body of the loop over the pose classes. *)
Definition bootstrap_class (per_pose_class_limit : option Z) (pose_class_name : string)
    : M unit :=
  modify (set_landmarks_3d (ensure_dir pose_class_name)) ;;;
  modify (set_images_out (ensure_dir pose_class_name)) ;;;
  csv_open_w pose_class_name ;;;
  listing <- listdir_in pose_class_name ;;
  for_each (image_names_of per_pose_class_limit listing)
    (λ image_name, _bootstrap_internal image_name pose_class_name).

Definition bootstrap (self : BootstrapHelper) (per_pose_class_limit : option Z) : M unit :=
  for_each (_pose_class_names self) (bootstrap_class per_pose_class_limit).

(** The state of a class that is about to be bootstrapped: its folders are
    there and its CSV is open for writing, empty. *)
Definition class_start (cls : string) (w : fs) : fs :=
  set_csvs <[cls := []]>
    (set_images_out (ensure_dir cls) (set_landmarks_3d (ensure_dir cls) w)).

(** The state after the writes of a successful detection. *)
Definition recorded (image_name cls : string) (frame : image)
    (lmks : list (landmark coord)) (w : fs) : fs :=
  set_plots (λ p, {[ (cls, image_name) ]} ∪ p)
    (set_landmarks_3d (alter <[image_name +:+ ".png" := draw_landmarks frame lmks]> cls)
      (set_csvs
         (alter (λ rows, rows ++
                   [csv_row image_name (scaled (height frame) (width frame) <$> lmks)]) cls)
         (set_images_out (alter (written cls image_name (cvtColor frame)) cls) w))).

(** What the tracker finds on an image of the data set: nothing when the
    image cannot be loaded or shows no body. *)
Definition detection (w : fs) (cls image_name : string)
    : option (list (landmark coord)) :=
  loaded_frame w cls image_name ≫= λ frame, pose_landmarks (cvtColor frame).

(** The contract of the tracker: a detected pose has 33 landmarks. *)
Definition detector_contract : Prop :=
  ∀ frame lmks, pose_landmarks frame = Some lmks → length lmks = 33%nat.
End bootstrap.

(** ** The correspondence between rows and files *)

(** The rows of a CSV that carry the image name [f]. *)
Definition rows_of (f : string) (rows : list row) : list row :=
  filter (λ r, row_name r = f) rows.

(** The correspondence the specification asks for: every row names a file of
    the folder, and every file of the folder is named by exactly one row. *)
Definition strict_bijection (rows : list row) (dir : gmap string entry) : Prop :=
  (∀ r, r ∈ rows → row_name r ∈ dom dir) ∧
  (∀ f, f ∈ dom dir → length (rows_of f rows) = 1%nat).

(** What a pass does establish: no empty row, every file is named by a row,
    and every row that carries a file name names a file. *)
Definition in_sync (rows : list row) (dir : gmap string entry) : Prop :=
  Forall (λ r, r ≠ []) rows ∧
  (∀ f, f ∈ dom dir → f ∈ row_names rows) ∧
  (∀ n, n ∈ row_names rows → plain n = true → n ∈ dom dir).

(** All image names of the CSV of [cls] are file names. *)
Definition plain_csv (cls : string) (w : fs) : Prop :=
  ∀ rows, csvs w !! cls = Some rows →
    Forall (λ n, plain n = true) (row_names (nonempty_rows rows)).

(** No image name occurs in two rows of the CSV of [cls]. *)
Definition distinct_csv (cls : string) (w : fs) : Prop :=
  ∀ rows, csvs w !! cls = Some rows → NoDup (row_names (nonempty_rows rows)).

(** ** Conditions on a pass *)

(** What lets the deletion loop pass over a listed name: the name is kept,
    or it is the name of a file. *)
Definition removable (dir : gmap string entry) (names : list string) (k : string) : Prop :=
  k ∈ names ∨ ∃ f, dir !! k = Some (File f).

(** When a pass over [cls] returns: the CSV and the folder are there, every
    row can be judged, and no sub-directory is left without a row. *)
Definition alignable (cls : string) (w : fs) (all_rows : list row)
    (dir : gmap string entry) : Prop :=
  csvs w !! cls = Some all_rows ∧
  images_out w !! cls = Some dir ∧
  Forall (judged (Some dir)) (nonempty_rows all_rows) ∧
  (∀ k, dir !! k = Some Dir → k ∈ row_names (kept_rows (Some dir) all_rows)).

Definition synced (c : string) (w : fs) : Prop :=
  ∃ rows dir, csvs w !! c = Some rows ∧ images_out w !! c = Some dir ∧ in_sync rows dir.

(** A class on which a pass changes nothing. *)
Definition settled (c : string) (w : fs) : Prop :=
  ∃ rows dir, alignable c w rows dir ∧
    kept_rows (Some dir) rows = rows ∧ kept_files (row_names rows) dir = dir.

(** ** Sample states *)

Definition frame0 : image := {| height := 1; width := 1; pixels := [(1, 2, 3)] |}.
Definition frame1 : image := {| height := 2; width := 1; pixels := [(4, 5, 6); (7, 8, 9)] |}.

Definition squat_only : BootstrapHelper := {| _pose_class_names := ["squat"] |}.

(** The scenario of the specification after bootstrap, with a stale row and
    a hidden file added: [a.jpg] has a row, [b.jpg] has none. *)
Definition scenario : fs :=
  {| data_set := ∅;
     images_out :=
       {[ "squat" := {[ "a.jpg" := File frame0; "b.jpg" := File frame1;
                        ".DS_Store" := File frame0 ]} ]};
     csvs := {[ "squat" := [["a.jpg"; "1.5"]; []; ["lost.jpg"; "2.5"]] ]};
     landmarks_3d := ∅; plots := ∅ |}.

Definition scenario_aligned : fs :=
  {| data_set := ∅;
     images_out := {[ "squat" := {[ "a.jpg" := File frame0 ]} ]};
     csvs := {[ "squat" := [["a.jpg"; "1.5"]] ]};
     landmarks_3d := ∅; plots := ∅ |}.

(** Two rows for one image. *)
Definition duplicated : fs :=
  {| data_set := ∅;
     images_out := {[ "squat" := {[ "a.jpg" := File frame0 ]} ]};
     csvs := {[ "squat" := [["a.jpg"; "1"]; ["a.jpg"; "2"]] ]};
     landmarks_3d := ∅; plots := ∅ |}.

(** A row that names its image through the current directory. *)
Definition dotted : fs :=
  {| data_set := ∅;
     images_out := {[ "squat" := {[ "b.jpg" := File frame0 ]} ]};
     csvs := {[ "squat" := [["./b.jpg"; "1"]] ]};
     landmarks_3d := ∅; plots := ∅ |}.

Definition dotted_once : fs :=
  {| data_set := ∅;
     images_out := {[ "squat" := ∅ ]};
     csvs := {[ "squat" := [["./b.jpg"; "1"]] ]};
     landmarks_3d := ∅; plots := ∅ |}.

Definition dotted_twice : fs :=
  {| data_set := ∅;
     images_out := {[ "squat" := ∅ ]};
     csvs := {[ "squat" := [] ]};
     landmarks_3d := ∅; plots := ∅ |}.

(** An output folder without its CSV. *)
Definition no_csv : fs :=
  {| data_set := ∅;
     images_out := {[ "squat" := {[ "a.jpg" := File frame0 ]} ]};
     csvs := ∅;
     landmarks_3d := ∅; plots := ∅ |}.

(** A data set: a pose on [a.jpg], no body on [b.jpg], a hidden file. *)
Definition fresh : fs :=
  {| data_set :=
       {[ "squat" := {[ "b.jpg" := Some frame1; "a.jpg" := Some frame0;
                        ".DS_Store" := None ]} ]};
     images_out := ∅; csvs := ∅; landmarks_3d := ∅; plots := ∅ |}.

(** The CSV of [squat] has just been opened, the output folder is there. *)
Definition opened : fs :=
  {| data_set := data_set fresh;
     images_out := {[ "squat" := ∅ ]};
     csvs := {[ "squat" := [] ]};
     landmarks_3d := {[ "squat" := ∅ ]}; plots := ∅ |}.

Definition origin : landmark Z := Landmark 0 0 0.

(** The string ends in the suffix. *)
Fixpoint ends_in (suffix s : string) : bool :=
  String.eqb suffix s ||
  match s with
  | EmptyString => false
  | String _ r => ends_in suffix r
  end.

(** Encoders for the names that end in [.jpg] or [.png]. *)
Definition jpg_or_png (n : string) : bool := ends_in ".jpg" n || ends_in ".png" n.

(** A tracker that keeps its contract: a pose on the frames of height 1. *)
Definition tracker : Collaborators :=
  {| coord := Z;
     scale := Z.mul;
     to_str := λ _, "0.0";
     pose_landmarks := λ f, if height f =? 1 then Some (replicate 33 origin) else None;
     draw_landmarks := λ f _, f;
     encodable := λ _ n, jpg_or_png n;
     encoded := λ _ _ f, f |}.

(** A tracker that breaks it: one landmark on the frames of another
    height. *)
Definition faulty : Collaborators :=
  {| coord := Z;
     scale := Z.mul;
     to_str := λ _, "0.0";
     pose_landmarks := λ f, if height f =? 1 then Some (replicate 33 origin) else Some [origin];
     draw_landmarks := λ f _, f;
     encodable := λ _ n, jpg_or_png n;
     encoded := λ _ _ f, f |}.

(** [opened] after the image [a.jpg] has been processed. *)
Definition opened_after_a : fs :=
  {| data_set := data_set fresh;
     images_out := {[ "squat" := {[ "a.jpg" := File (cvtColor frame0) ]} ]};
     csvs := {[ "squat" := [ "a.jpg" :: replicate 99 "0.0" ] ]};
     landmarks_3d := {[ "squat" := {[ "a.jpg.png" := frame0 ]} ]};
     plots := {[ ("squat", "a.jpg") ]} |}.

(** A data set of images in the JFIF container, which OpenCV decodes and
    for whose extension it has no encoder: a pose on [a.jfif], no body on
    [b.jfif]; the class is about to be bootstrapped. *)
Definition opened_jfif : fs :=
  {| data_set := {[ "squat" := {[ "a.jfif" := Some frame0; "b.jfif" := Some frame1 ]} ]};
     images_out := {[ "squat" := ∅ ]};
     csvs := {[ "squat" := [] ]};
     landmarks_3d := {[ "squat" := ∅ ]}; plots := ∅ |}.

(** A data set with one such image, on which [faulty] finds one landmark. *)
Definition fresh_jfif : fs :=
  {| data_set := {[ "squat" := {[ "b.jfif" := Some frame1 ]} ]};
     images_out := ∅; csvs := ∅; landmarks_3d := ∅; plots := ∅ |}.

(** [opened], with a sub-directory of the output folder under the name of an
    image. *)
Definition opened_subdir : fs :=
  {| data_set := data_set fresh;
     images_out := {[ "squat" := {[ "b.jpg" := Dir ]} ]};
     csvs := {[ "squat" := [] ]};
     landmarks_3d := {[ "squat" := ∅ ]}; plots := ∅ |}.

Definition outlier_b : outlier :=
  {| outlier_sample := {| class_name := "squat"; name := "b.jpg" |};
     detected_class := "lunge"; all_classes := ["lunge"; "squat"] |}.

Definition outlier_a : outlier :=
  {| outlier_sample := {| class_name := "squat"; name := "a.jpg" |};
     detected_class := "lunge"; all_classes := ["lunge"; "squat"] |}.

(** [scenario] after the outlier [b.jpg] has been removed. *)
Definition scenario_without_b : fs :=
  {| data_set := ∅;
     images_out :=
       {[ "squat" := {[ "a.jpg" := File frame0; ".DS_Store" := File frame0 ]} ]};
     csvs := csvs scenario;
     landmarks_3d := ∅; plots := ∅ |}.

(** ** What a program leaves alone *)

(** The program [m] takes every state to a state related to it by [R],
    however it ends. *)
Definition respects {A} (R : relation fs) (m : M A) : Prop :=
  ∀ w, R w (m w).1.

(** Nothing but the CSVs and the output folders of the classes [cs] differs. *)
Definition only_classes (cs : list string) : relation fs := λ w w',
  data_set w' = data_set w ∧ landmarks_3d w' = landmarks_3d w ∧ plots w' = plots w ∧
  ∀ c, c ∉ cs → csvs w' !! c = csvs w !! c ∧ images_out w' !! c = images_out w !! c.

(** Every output folder is a part of what it was: no folder and no file is
    new, no file holds another frame. *)
Definition only_removes : relation fs := λ w w',
  ∀ c dir', images_out w' !! c = Some dir' →
    ∃ dir, images_out w !! c = Some dir ∧ dir' ⊆ dir.

Global Instance sample_eq_dec : EqDecision sample.
Proof. solve_decision. Defined.

(** The samples of a list of outliers. *)
Definition samples_of (outliers : list outlier) : list sample :=
  outlier_sample <$> outliers.

(** The entries of the folder of [c] that no sample of the list names. *)
Definition without_samples (samples : list sample) (c : string)
    (dir : gmap string entry) : gmap string entry :=
  filter (λ kv, {| class_name := c; name := kv.1 |} ∉ samples) dir.

(** What [bootstrap] on the classes [cs] leaves alone: the data set; the
    CSV, the output folder and the folder of annotated frames of every other
    class; and the names in every output folder, which are never fewer. *)
Definition bootstrap_keeps (cs : list string) : relation fs := λ w w',
  data_set w' = data_set w ∧
  (∀ c, c ∉ cs →
     csvs w' !! c = csvs w !! c ∧ images_out w' !! c = images_out w !! c ∧
     landmarks_3d w' !! c = landmarks_3d w !! c) ∧
  (∀ c dir, images_out w !! c = Some dir →
     ∃ dir', images_out w' !! c = Some dir' ∧ dom dir ⊆ dom dir').

(** ** Statistics *)

(** [len([n for n in os.listdir(folder) if not n.startswith('.')])] *)
Definition n_images {V} (dir : gmap string V) : nat :=
  length (filter (λ n, hidden n = false) (map_to_list dir).*1).

(** ['  {}: {}'.format(pose_class_name, n_images)] *)
Definition statistics_line (pose_class_name : string) (n : nat) : string :=
  "  " +:+ pose_class_name +:+ ": " +:+ pretty n.

(** The loop of [_print_images_statistics]: the lines it prints, in order,
    and how it ends.  A class without its folder in the tree makes
    [os.listdir] raise after the lines of the classes before it. *)
Fixpoint class_lines {V} (tree : gmap string (gmap string V)) (classes : list string)
    : list string * outcome unit :=
  match classes with
  | [] => ([], Return tt)
  | pose_class_name :: rest =>
      match tree !! pose_class_name with
      | None => ([], Raise FileNotFoundError)
      | Some dir =>
          let '(lines, o) := class_lines tree rest in
          (statistics_line pose_class_name (n_images dir) :: lines, o)
      end
  end.

Definition _print_images_statistics {V} (self : BootstrapHelper)
    (images_folder : gmap string (gmap string V)) : list string * outcome unit :=
  let '(lines, o) := class_lines images_folder (_pose_class_names self) in
  ("Number of images per pose class:" :: lines, o).

Definition print_images_in_statistics (self : BootstrapHelper) (w : fs)
    : list string * outcome unit :=
  _print_images_statistics self (data_set w).

Definition print_images_out_statistics (self : BootstrapHelper) (w : fs)
    : list string * outcome unit :=
  _print_images_statistics self (images_out w).

(** The visible entries of the output folder of [c] are images of the data
    set. *)
Definition out_from_data_set (c : string) (w : fs) : Prop :=
  ∀ dir k, images_out w !! c = Some dir → is_Some (dir !! k) → hidden k = false →
    ∃ files, data_set w !! c = Some files ∧ is_Some (files !! k).

(** Every visible image of the data set of [c] is in its output folder. *)
Definition data_set_in_out (c : string) (w : fs) : Prop :=
  ∃ files dir, data_set w !! c = Some files ∧ images_out w !! c = Some dir ∧
    ∀ k, is_Some (files !! k) → hidden k = false → is_Some (dir !! k).

(** ** More sample states *)

(** A row without image name. *)
Definition nameless : fs :=
  {| data_set := ∅;
     images_out := {[ "squat" := {[ "a.jpg" := File frame0 ]} ]};
     csvs := {[ "squat" := [[EmptyString; "1.5"]] ]};
     landmarks_3d := ∅; plots := ∅ |}.

Definition nameless_aligned : fs :=
  {| data_set := ∅;
     images_out := {[ "squat" := ∅ ]};
     csvs := {[ "squat" := [[EmptyString; "1.5"]] ]};
     landmarks_3d := ∅; plots := ∅ |}.

(** A CSV without its output folder. *)
Definition no_folder : fs :=
  {| data_set := ∅; images_out := ∅;
     csvs := {[ "squat" := [["a.jpg"; "1.5"]] ]};
     landmarks_3d := ∅; plots := ∅ |}.

(** An output folder with a sub-directory. *)
Definition with_subdir : fs :=
  {| data_set := ∅;
     images_out := {[ "squat" := {[ "a.jpg" := File frame0; "old" := Dir ]} ]};
     csvs := {[ "squat" := [["a.jpg"; "1.5"]] ]};
     landmarks_3d := ∅; plots := ∅ |}.

Definition outlier_old : outlier :=
  {| outlier_sample := {| class_name := "squat"; name := "old" |};
     detected_class := "lunge"; all_classes := ["lunge"; "squat"] |}.

(** [scenario] without the two outliers. *)
Definition scenario_without_a_b : fs :=
  {| data_set := ∅;
     images_out := {[ "squat" := {[ ".DS_Store" := File frame0 ]} ]};
     csvs := csvs scenario;
     landmarks_3d := ∅; plots := ∅ |}.

(** * Properties *)

(** ** Facts about names *)

Lemma components_not_nil s : components s ≠ [].
Proof.
  destruct s as [|c r]; simpl; [done|].
  destruct (Ascii.eqb c "/"); [done|].
  by destruct (components r).
Qed.

Lemma components_single s c : components s = [c] → c = s.
Proof.
  revert c. induction s as [|a r IH]; intros c; simpl.
  - by intros [= <-].
  - destruct (Ascii.eqb a "/").
    + intros [= _ Hr]. by apply components_not_nil in Hr.
    + destruct (components r) as [|x xs] eqn:Hr; [by intros [= <-]; apply components_not_nil in Hr|].
      intros [= <- ->]. by rewrite (IH x eq_refl).
Qed.

Lemma plain_components n : plain n = true → components n = [n].
Proof.
  unfold plain. destruct (components n) as [|c [|??]] eqn:Hc; try done.
  intros _. by rewrite (components_single _ _ Hc).
Qed.

Lemma plain_not_special n :
  plain n = true →
  String.eqb n EmptyString = false ∧ String.eqb n "." = false ∧ String.eqb n ".." = false.
Proof.
  intros Hp. pose proof (plain_components _ Hp) as Hc.
  unfold plain in Hp. rewrite Hc in Hp.
  apply negb_true_iff in Hp.
  apply orb_false_iff in Hp as [Hp ?]. apply orb_false_iff in Hp as [??]. done.
Qed.

Lemma plain_relative n : plain n = true → startswith "/" n = false.
Proof.
  intros Hp. pose proof (plain_components _ Hp) as Hc.
  destruct n as [|a r]; [done|].
  change (startswith "/" (String a r)) with (Ascii.eqb "/" a && true).
  simpl in Hc. rewrite Ascii.eqb_sym.
  destruct (Ascii.eqb a "/"); [|done].
  injection Hc as _ Hr. by apply components_not_nil in Hr.
Qed.

(** A plain name is looked up in the folder and nowhere else. *)
Lemma resolve_plain dir n :
  plain n = true →
  resolve (Some dir) n = match dir !! n with Some _ => TEntry n | None => TMissing end.
Proof.
  intros Hp. unfold resolve. rewrite (plain_relative _ Hp), (plain_components _ Hp).
  destruct (plain_not_special _ Hp) as (H1 & H2 & H3).
  simpl. rewrite H1, H2, H3. simpl.
  by destruct (dir !! n) as [[]|].
Qed.

Lemma path_exists_plain dir n :
  plain n = true →
  path_exists (Some dir) n = Return (bool_decide (n ∈ dom dir)).
Proof.
  intros Hp. unfold path_exists. rewrite (resolve_plain _ _ Hp).
  destruct (dir !! n) eqn:Hn.
  - rewrite bool_decide_eq_true_2; [done|]. apply elem_of_dom; eauto.
  - rewrite bool_decide_eq_false_2; [done|]. by apply not_elem_of_dom.
Qed.

Lemma path_exists_no_raise folder n e : path_exists folder n ≠ Raise e.
Proof. unfold path_exists. by destruct (resolve folder n). Qed.

Lemma path_exists_missing_folder n b : path_exists None n = Return b → b = false.
Proof.
  unfold path_exists, resolve. destruct (startswith "/" n); [done|]. by intros [= <-].
Qed.

(** On a file name, removal through the path is removal of the entry. *)
Lemma os_remove_plain cls n w :
  plain n = true → os_remove cls n w = os_remove_entry cls n w.
Proof.
  intros Hp. unfold os_remove, os_remove_entry, path_remove.
  destruct (images_out w !! cls) as [dir|] eqn:Hd.
  - rewrite (resolve_plain _ _ Hp). destruct (dir !! n) as [[]|] eqn:Hn; rewrite ?Hn; done.
  - unfold resolve. by rewrite (plain_relative _ Hp).
Qed.

(** ** Facts about the state *)

Lemma set_csvs_insert_id cls rows w :
  csvs w !! cls = Some rows → set_csvs <[cls := rows]> w = w.
Proof. destruct w; simpl; intros Hc. unfold set_csvs; simpl. by rewrite insert_id. Qed.

Lemma set_images_out_insert_id cls dir w :
  images_out w !! cls = Some dir → set_images_out <[cls := dir]> w = w.
Proof. destruct w; simpl; intros Hc. unfold set_images_out; simpl. by rewrite insert_id. Qed.

Lemma bind_Return {A B} (m : M A) (k : A → M B) w w' b :
  bind m k w = (w', Return b) →
  ∃ w1 a, m w = (w1, Return a) ∧ k a w1 = (w', Return b).
Proof.
  unfold bind. destruct (m w) as [w1 [a| |]]; [eauto|done..].
Qed.

(** ** The rewriting loop *)

Lemma rewrite_rows_judged cls rows : ∀ acc w pre,
  csvs w !! cls = Some pre →
  Forall (λ r, r ≠ [] ∧ judged (images_out w !! cls) r) rows →
  rewrite_rows cls rows acc w =
    (set_csvs <[cls := pre ++ filter (λ r, keeps (images_out w !! cls) r = true) rows]> w,
     Return (acc ++ row_names (filter (λ r, keeps (images_out w !! cls) r = true) rows))).
Proof.
  induction rows as [|r rest IH]; intros acc w pre Hpre Hall.
  - simpl. unfold ret. rewrite !app_nil_r. by rewrite set_csvs_insert_id.
  - apply Forall_cons in Hall as [[Hne Hj] Hall].
    destruct r as [|n t]; [done|].
    assert (keeps (images_out w !! cls) (n :: t) =
            match path_exists (images_out w !! cls) n with
            | Return true => true | _ => false end) as Hk by done.
    unfold judged in Hj. change (row_name (n :: t)) with n in Hj.
    rewrite filter_cons, Hk.
    cbn [rewrite_rows item0]. unfold bind at 1 2. unfold ret at 1, os_path_exists.
    destruct (path_exists (images_out w !! cls) n) as [[]| |] eqn:He; try done.
    + unfold bind, writerow, modify.
      rewrite (IH _ _ (pre ++ [n :: t])).
      * unfold set_csvs; simpl.
        rewrite insert_alter_eq. change (row_name (n :: t)) with n.
        by rewrite <- !(assoc_L (++)).
      * simpl. by rewrite lookup_alter_eq, Hpre.
      * done.
    + simpl. by apply IH.
    + by apply path_exists_no_raise in He.
Qed.

Lemma rewrite_rows_Return cls rows : ∀ acc w w' names,
  rewrite_rows cls rows acc w = (w', Return names) →
  Forall (λ r, r ≠ [] ∧ judged (images_out w !! cls) r) rows.
Proof.
  induction rows as [|r rest IH]; intros acc w w' names Hrun; [done|].
  simpl in Hrun.
  apply bind_Return in Hrun as (w1 & n & Hn & Hrun).
  destruct r as [|n' t]; [done|]. injection Hn as ??; subst w1 n.
  apply bind_Return in Hrun as (w1 & b & Hb & Hrun).
  unfold os_path_exists in Hb. injection Hb as ? Hb; subst w1.
  constructor.
  - split; [done|]. unfold judged. change (row_name (n' :: t)) with n'. by rewrite Hb.
  - destruct b.
    + apply bind_Return in Hrun as (w1 & [] & Hw & Hrun).
      injection Hw as ?; subst w1. by apply IH in Hrun.
    + by apply IH in Hrun.
Qed.

(** ** The deletion loop *)


Lemma remove_loop_ok cls names l : ∀ w dir,
  images_out w !! cls = Some dir →
  NoDup l →
  Forall (removable dir names) l →
  for_each l (remove_unless_listed cls names) w =
    (set_images_out <[cls := filter (λ kv, kv.1 ∈ names ∨ kv.1 ∉ l) dir]> w, Return tt).
Proof.
  induction l as [|x l IH]; intros w dir Hdir Hnd Hall.
  - simpl. unfold ret. f_equal. symmetry.
    rewrite (map_filter_id _ dir); [by apply set_images_out_insert_id|].
    intros ?? _. right. apply not_elem_of_nil.
  - apply NoDup_cons in Hnd as [Hx Hnd]. apply Forall_cons in Hall as [Hrx Hall].
    cbn [for_each]. unfold bind, remove_unless_listed.
    case_bool_decide as Hin.
    + unfold ret. rewrite (IH _ dir) by done. do 2 f_equal. f_equal.
      apply map_filter_ext. intros k v _. simpl.
      rewrite not_elem_of_cons. split; [|tauto].
      intros [?|?]; [by left|]. destruct (decide (k = x)) as [->|]; [by left|by right].
    + destruct Hrx as [?|[f Hf]]; [done|].
      unfold os_remove_entry. rewrite Hdir, Hf.
      rewrite (IH _ (delete x dir)).
      * unfold set_images_out; simpl. rewrite insert_insert_eq. do 3 f_equal.
        apply map_eq. intros k. apply option_eq. intros v.
        rewrite !map_lookup_filter_Some, lookup_delete_Some. simpl.
        rewrite not_elem_of_cons.
        split.
        -- intros [[Hne ?] [?|?]]; (split; [done|]); [by left|right].
           split; [by intros ->|done].
        -- intros [? Hk]. split; [split; [|done]|].
           ++ intros ->. by destruct Hk as [?|[? _]].
           ++ destruct Hk as [?|[_ ?]]; [by left|by right].
      * simpl. by rewrite lookup_insert_eq.
      * done.
      * apply Forall_forall. intros k Hk. rewrite Forall_forall in Hall.
        destruct (Hall k Hk) as [?|[f' Hf']]; [by left|right].
        exists f'. rewrite lookup_delete_ne; [done|]. by intros ->.
Qed.

Lemma remove_loop_Return cls names l : ∀ w w' dir,
  images_out w !! cls = Some dir →
  for_each l (remove_unless_listed cls names) w = (w', Return tt) →
  Forall (removable dir names) l.
Proof.
  induction l as [|x l IH]; intros w w' dir Hdir Hrun; [done|].
  cbn [for_each] in Hrun. apply bind_Return in Hrun as (w1 & [] & Hx & Hrun).
  unfold remove_unless_listed in Hx. case_bool_decide as Hin.
  - injection Hx as ?; subst w1. constructor; [by left|]. by eapply IH.
  - unfold os_remove_entry in Hx. rewrite Hdir in Hx.
    destruct (dir !! x) as [[f|]|] eqn:Hf; try done.
    injection Hx as ?; subst w1. constructor; [right; eauto|].
    eapply Forall_impl; [eapply (IH _ _ (delete x dir)), Hrun|].
    + simpl. by rewrite lookup_insert_eq.
    + intros k [?|[f' Hf']]; [by left|right]. exists f'.
      by apply lookup_delete_Some in Hf' as [_ ?].
Qed.


(** ** One pass over a pose class *)

Lemma elem_of_listing {V} (m : gmap string V) k :
  k ∈ (map_to_list m).*1 ↔ is_Some (m !! k).
Proof.
  rewrite list_elem_of_fmap. split.
  - intros ([k' v] & -> & Hin). apply elem_of_map_to_list in Hin. eauto.
  - intros [v Hv]. exists (k, v). split; [done|]. by apply elem_of_map_to_list.
Qed.


Lemma nonempty_rows_Forall all_rows : Forall (λ r, r ≠ []) (nonempty_rows all_rows).
Proof.
  apply Forall_forall. intros r Hr. apply list_elem_of_filter in Hr as [Hr _].
  by intros ->.
Qed.

Lemma align_class_ok cls w all_rows dir :
  alignable cls w all_rows dir →
  align_class cls w = (aligned cls all_rows dir w, Return tt).
Proof.
  intros (Hcsv & Hdir & Hj & Hd).
  unfold align_class, bind at 1, csv_read. rewrite Hcsv.
  unfold bind at 1, csv_open_w, modify. unfold bind at 1.
  rewrite (rewrite_rows_judged _ _ _ _ []); simpl; rewrite ?Hdir.
  - unfold bind, os_listdir. simpl. rewrite Hdir.
    rewrite (remove_loop_ok _ _ _ _ dir); simpl.
    + unfold aligned, kept_rows, kept_files, set_images_out, set_csvs. simpl.
      rewrite insert_insert_eq. do 3 f_equal.
      apply map_filter_ext. intros k v Hk. simpl. split; [|by left].
      intros [?|Hn]; [done|]. destruct Hn. apply elem_of_listing; eauto.
    + done.
    + apply NoDup_fst_map_to_list.
    + apply Forall_forall. intros k Hk. apply elem_of_listing in Hk as [[f|] Hk].
      * right; eauto.
      * left. by apply Hd.
  - by rewrite lookup_insert_eq.
  - eapply Forall_impl; [apply Forall_and; split; [apply nonempty_rows_Forall|apply Hj]|].
    by intros r [??].
Qed.

Lemma align_class_Return cls w w' :
  align_class cls w = (w', Return tt) →
  ∃ all_rows dir, alignable cls w all_rows dir ∧ w' = aligned cls all_rows dir w.
Proof.
  intros Hrun. pose proof Hrun as Hrun0.
  apply bind_Return in Hrun as (w1 & all_rows & Hread & Hrun).
  unfold csv_read in Hread. destruct (csvs w !! cls) as [rows0|] eqn:Hcsv; [|done].
  injection Hread as ??; subst w1 rows0.
  apply bind_Return in Hrun as (w1 & [] & Hopen & Hrun).
  injection Hopen as ?; subst w1.
  apply bind_Return in Hrun as (w2 & names & Hrw & Hrun).
  apply bind_Return in Hrun as (w3 & listing & Hls & Hrun).
  pose proof (rewrite_rows_Return _ _ _ _ _ _ Hrw) as Hj. simpl in Hj.
  rewrite (rewrite_rows_judged _ _ _ _ []) in Hrw; [|by simpl; rewrite lookup_insert_eq|done].
  injection Hrw as ??; subst w2 names. simpl in *.
  unfold os_listdir in Hls. simpl in Hls.
  destruct (images_out w !! cls) as [dir|] eqn:Hdir; [|done].
  injection Hls as ??; subst w3 listing.
  apply remove_loop_Return with (dir := dir) in Hrun; [|done].
  assert (alignable cls w all_rows dir) as Hal.
  { split_and!; [done..| |].
    - eapply Forall_impl; [apply Hj|]. by intros r [_ ?].
    - intros k Hk. rewrite Forall_forall in Hrun.
      destruct (Hrun k) as [?|[f Hf]]; [apply elem_of_listing; eauto|done|congruence]. }
  exists all_rows, dir. split; [done|].
  rewrite (align_class_ok _ _ _ _ Hal) in Hrun0. by injection Hrun0.
Qed.

(** ** Loops *)

Lemma for_each_app {A} (l1 l2 : list A) (body : A → M unit) w w1 :
  for_each l1 body w = (w1, Return tt) →
  for_each (l1 ++ l2) body w = for_each l2 body w1.
Proof.
  revert w. induction l1 as [|x l1 IH]; intros w Hrun; simpl in *.
  - by injection Hrun as ->.
  - apply bind_Return in Hrun as (w0 & [] & Hx & Hrun).
    unfold bind at 1. rewrite Hx. by apply IH.
Qed.

Lemma for_each_Raise {A} (l : list A) (body : A → M unit) w w' e :
  for_each l body w = (w', Raise e) →
  ∃ x w1, x ∈ l ∧ body x w1 = (w', Raise e).
Proof.
  revert w. induction l as [|x l IH]; intros w Hrun; simpl in *; [done|].
  unfold bind in Hrun. destruct (body x w) as [w1 [[]| |]] eqn:Hx.
  - destruct (IH _ Hrun) as (y & w2 & ? & ?). exists y, w2. split; [by right|done].
  - injection Hrun as <- <-. exists x, w. split; [by left|done].
  - done.
Qed.

Lemma for_each_fixed {A} (l : list A) (body : A → M unit) w :
  (∀ x, x ∈ l → body x w = (w, Return tt)) →
  for_each l body w = (w, Return tt).
Proof.
  induction l as [|x l IH]; intros Hall; simpl; [done|].
  unfold bind. rewrite Hall by by left. apply IH. intros y ?. apply Hall. by right.
Qed.

(** A property of a class that one element of the loop establishes and the
    others keep holds for all classes when the loop returns. *)
Lemma for_each_establishes {A} `{EqDecision A} (body : A → M unit) (P : A → fs → Prop) :
  (∀ c w w', body c w = (w', Return tt) → P c w') →
  (∀ c d w w', c ≠ d → body d w = (w', Return tt) → P c w → P c w') →
  ∀ l w w', for_each l body w = (w', Return tt) → ∀ c, c ∈ l → P c w'.
Proof.
  intros Hest Hkeep.
  assert (∀ l c w w', c ∉ l → P c w → for_each l body w = (w', Return tt) → P c w')
    as Hpres.
  { induction l as [|d l IH]; intros c w w' Hc HP Hrun; simpl in Hrun.
    - by injection Hrun as <-.
    - apply not_elem_of_cons in Hc as [??].
      apply bind_Return in Hrun as (w1 & [] & Hd & Hrun). eauto. }
  induction l as [|d l IH]; intros w w' Hrun c Hc; [by apply elem_of_nil in Hc|].
  simpl in Hrun. apply bind_Return in Hrun as (w1 & [] & Hd & Hrun).
  destruct (decide (c ∈ l)) as [|Hnl]; [by eapply IH|].
  apply elem_of_cons in Hc as [->|]; [|done]. eauto.
Qed.

(** A property that every element of the loop keeps. *)
Lemma for_each_preserves {A} (body : A → M unit) (P : fs → Prop) :
  (∀ d w w', body d w = (w', Return tt) → P w → P w') →
  ∀ l w w', for_each l body w = (w', Return tt) → P w → P w'.
Proof.
  intros Hkeep. induction l as [|d l IH]; intros w w' Hrun HP; simpl in Hrun.
  - by injection Hrun as <-.
  - apply bind_Return in Hrun as (w1 & [] & Hd & Hrun). eauto.
Qed.

(** ** The state after a pass *)

Lemma aligned_csvs cls all_rows dir w :
  csvs (aligned cls all_rows dir w) = <[cls := kept_rows (Some dir) all_rows]> (csvs w).
Proof. done. Qed.

Lemma aligned_images_out cls all_rows dir w :
  images_out (aligned cls all_rows dir w) =
    <[cls := kept_files (row_names (kept_rows (Some dir) all_rows)) dir]> (images_out w).
Proof. done. Qed.

Lemma kept_files_names names dir f : f ∈ dom (kept_files names dir) → f ∈ names.
Proof.
  intros [v Hv]%elem_of_dom. by apply map_lookup_filter_Some in Hv as [_ ?].
Qed.

Lemma kept_files_dom names dir f :
  f ∈ dom (kept_files names dir) ↔ f ∈ dom dir ∧ f ∈ names.
Proof.
  rewrite !elem_of_dom. unfold kept_files. split.
  - intros [v Hv]. apply map_lookup_filter_Some in Hv as [??]. eauto.
  - intros [[v Hv] ?]. exists v. by apply map_lookup_filter_Some.
Qed.

Lemma kept_rows_keeps folder all_rows r :
  r ∈ kept_rows folder all_rows ↔ r ∈ all_rows ∧ r ≠ [] ∧ keeps folder r = true.
Proof.
  unfold kept_rows, nonempty_rows. rewrite !list_elem_of_filter.
  split.
  - intros (? & Hne & ?). split_and!; try done. by intros ->.
  - intros (? & Hne & ?). split_and!; try done. by destruct r.
Qed.

Lemma kept_rows_sublist folder all_rows : kept_rows folder all_rows `sublist_of` all_rows.
Proof.
  unfold kept_rows, nonempty_rows. etrans; apply sublist_filter; apply _.
Qed.

Lemma keeps_plain dir r :
  plain (row_name r) = true → keeps (Some dir) r = bool_decide (row_name r ∈ dom dir).
Proof. intros Hp. unfold keeps. rewrite (path_exists_plain _ _ Hp). by case_bool_decide. Qed.

(** ** Rows and files after a pass *)

Lemma nonempty_rows_id rows : Forall (λ r, r ≠ []) rows → nonempty_rows rows = rows.
Proof.
  intros Hall. unfold nonempty_rows. induction Hall as [|r rows Hr _ IH]; [done|].
  rewrite filter_cons, decide_True, IH; [done|]. by destruct r.
Qed.

Lemma kept_rows_nonempty folder all_rows : Forall (λ r, r ≠ []) (kept_rows folder all_rows).
Proof.
  apply Forall_forall. intros r Hr. by apply kept_rows_keeps in Hr as (_ & ? & _).
Qed.

Lemma aligned_in_sync all_rows dir :
  in_sync (kept_rows (Some dir) all_rows)
          (kept_files (row_names (kept_rows (Some dir) all_rows)) dir).
Proof.
  split_and!.
  - apply kept_rows_nonempty.
  - apply kept_files_names.
  - intros n Hn Hp. apply kept_files_dom. split; [|done].
    apply list_elem_of_fmap in Hn as (r & -> & Hr).
    apply kept_rows_keeps in Hr as (_ & _ & Hk).
    rewrite (keeps_plain _ _ Hp) in Hk. by apply bool_decide_eq_true in Hk.
Qed.

Lemma rows_of_unique f rows :
  NoDup (row_names rows) → f ∈ row_names rows → length (rows_of f rows) = 1%nat.
Proof.
  unfold rows_of, row_names. induction rows as [|r rows IH]; intros Hnd Hin.
  - by apply elem_of_nil in Hin.
  - rewrite fmap_cons in Hnd, Hin. apply NoDup_cons in Hnd as [Hr Hnd].
    rewrite filter_cons. case_decide as Hf.
    + subst f. simpl. f_equal.
      destruct (filter _ rows) as [|y ys] eqn:Hy; [done|].
      assert (y ∈ filter (λ r0, row_name r0 = row_name r) rows) as Hin'
        by (rewrite Hy; left).
      apply list_elem_of_filter in Hin' as [Heq Hin'].
      destruct Hr. rewrite <- Heq. by apply list_elem_of_fmap_2.
    + apply elem_of_cons in Hin as [->|?]; [done|]. by apply IH.
Qed.

Lemma in_sync_bijection rows dir :
  in_sync rows dir →
  Forall (λ n, plain n = true) (row_names rows) →
  NoDup (row_names rows) →
  strict_bijection rows dir.
Proof.
  intros (_ & Hfiles & Hrows) Hplain Hnd. split.
  - intros r Hr. apply Hrows; [by apply list_elem_of_fmap_2|].
    rewrite Forall_forall in Hplain. apply Hplain. by apply list_elem_of_fmap_2.
  - intros f Hf. apply rows_of_unique; auto.
Qed.

(** A pass over one class changes nothing of another one. *)
Lemma align_class_other c d w w' :
  c ≠ d → align_class d w = (w', Return tt) →
  csvs w' !! c = csvs w !! c ∧ images_out w' !! c = images_out w !! c.
Proof.
  intros Hne (all_rows & dir & _ & ->)%align_class_Return.
  rewrite aligned_csvs, aligned_images_out. by rewrite !lookup_insert_ne.
Qed.

Lemma align_class_distinct c d w w' :
  align_class d w = (w', Return tt) → distinct_csv c w → distinct_csv c w'.
Proof.
  intros Hrun Hd rows' Hrows'. destruct (decide (c = d)) as [->|Hne].
  - apply align_class_Return in Hrun as (all_rows & dir & (Hcsv & _) & ->).
    rewrite aligned_csvs, lookup_insert_eq in Hrows'. injection Hrows' as <-.
    rewrite nonempty_rows_id by apply kept_rows_nonempty.
    eapply sublist_NoDup; [apply (Hd _ Hcsv)|].
    apply fmap_sublist. unfold kept_rows. apply sublist_filter.
  - apply (align_class_other c) in Hrun as [Hc _]; [|done].
    apply Hd. by rewrite <- Hc.
Qed.


Lemma align_images_and_csvs_synced self w w' :
  align_images_and_csvs self w = (w', Return tt) →
  ∀ c, c ∈ _pose_class_names self → synced c w'.
Proof.
  apply (for_each_establishes align_class synced).
  - intros c w0 w1 (all_rows & dir & _ & ->)%align_class_Return.
    exists (kept_rows (Some dir) all_rows),
      (kept_files (row_names (kept_rows (Some dir) all_rows)) dir).
    rewrite aligned_csvs, aligned_images_out, !lookup_insert_eq.
    split_and!; [done..|]. apply aligned_in_sync.
  - intros c d w0 w1 Hne Hrun (rows & dir & Hr & Hd & Hs).
    apply (align_class_other c) in Hrun as [Hc Hi]; [|done].
    exists rows, dir. by rewrite Hc, Hi.
Qed.

(** C1 (amended).  When [align_images_and_csvs] returns, then for every pose
    class: each file name of the output folder is the image name of a CSV
    row, and each image name of the CSV that is a file name is the name of a
    file of the folder.  Rows with the same image name are all kept: the
    correspondence is one to one when the image names left in the CSV are
    file names without repetition, and they are without repetition when they
    were so before the call. *)
Theorem align_images_and_csvs_sets_agree self w w' c :
  align_images_and_csvs self w = (w', Return tt) →
  c ∈ _pose_class_names self →
  ∃ rows dir,
    csvs w' !! c = Some rows ∧ images_out w' !! c = Some dir ∧
    (∀ f, f ∈ dom dir → f ∈ row_names rows) ∧
    (∀ n, n ∈ row_names rows → plain n = true → n ∈ dom dir) ∧
    (Forall (λ n, plain n = true) (row_names rows) → NoDup (row_names rows) →
       strict_bijection rows dir) ∧
    (distinct_csv c w → NoDup (row_names rows)).
Proof.
  intros Hrun Hc.
  destruct (align_images_and_csvs_synced _ _ _ Hrun c Hc) as (rows & dir & Hr & Hd & Hs).
  exists rows, dir. split_and!; try done.
  - apply Hs.
  - apply Hs.
  - by apply in_sync_bijection.
  - intros Hdist.
    assert (distinct_csv c w') as Hd'.
    { revert Hdist. eapply (for_each_preserves align_class (distinct_csv c)), Hrun.
      intros d w0 w1. apply align_class_distinct. }
    specialize (Hd' _ Hr). destruct Hs as (Hne & _).
    by rewrite nonempty_rows_id in Hd'.
Qed.

(** ** A second pass *)

Lemma filter_all {A} (P : A → Prop) `{∀ x, Decision (P x)} (l : list A) :
  Forall P l → filter P l = l.
Proof.
  induction 1 as [|x l Hx _ IH]; [done|]. by rewrite filter_cons, decide_True, IH.
Qed.


Lemma settled_fixed c w : settled c w → align_class c w = (w, Return tt).
Proof.
  intros (rows & dir & Hal & Hr & Hd).
  rewrite (align_class_ok _ _ _ _ Hal). f_equal.
  destruct Hal as (Hcsv & Hdir & _). unfold aligned. rewrite Hr, Hd.
  rewrite set_csvs_insert_id by done. by apply set_images_out_insert_id.
Qed.

Lemma settled_other c d w w' :
  c ≠ d → align_class d w = (w', Return tt) → settled c w → settled c w'.
Proof.
  intros Hne Hrun (rows & dir & (Hcsv & Hdir & Hj & Hs) & Hr & Hd).
  apply (align_class_other c) in Hrun as [Hc Hi]; [|done].
  exists rows, dir. split; [|done]. unfold alignable. by rewrite Hc, Hi.
Qed.

Lemma align_class_settled c w w' :
  align_class c w = (w', Return tt) → plain_csv c w' → settled c w'.
Proof.
  intros (all_rows & dir & _ & ->)%align_class_Return Hplain.
  set (rows1 := kept_rows (Some dir) all_rows) in *.
  set (dir1 := kept_files (row_names rows1) dir) in *.
  pose proof (aligned_in_sync all_rows dir) as (Hne & Hfiles & Hrows).
  fold rows1 dir1 in Hne, Hfiles, Hrows.
  specialize (Hplain rows1). rewrite aligned_csvs, lookup_insert_eq in Hplain.
  specialize (Hplain eq_refl). rewrite nonempty_rows_id in Hplain by done.
  rewrite Forall_forall in Hplain.
  assert (kept_rows (Some dir1) rows1 = rows1) as Hkept.
  { unfold kept_rows. rewrite nonempty_rows_id by done. apply filter_all.
    apply Forall_forall. intros r Hr.
    assert (row_name r ∈ row_names rows1) as Hn by by apply list_elem_of_fmap_2.
    rewrite keeps_plain by auto. apply bool_decide_eq_true. auto. }
  exists rows1, dir1. split; [|split; [done|]].
  - unfold alignable. rewrite aligned_csvs, aligned_images_out, !lookup_insert_eq.
    split_and!; [done..| |].
    + rewrite nonempty_rows_id by done. apply Forall_forall. intros r Hr.
      unfold judged. rewrite path_exists_plain; [done|].
      apply Hplain. by apply list_elem_of_fmap_2.
    + intros k Hk. rewrite Hkept. apply Hfiles. apply elem_of_dom; eauto.
  - unfold kept_files. apply map_filter_id. intros k v Hk. simpl.
    apply Hfiles. apply elem_of_dom; eauto.
Qed.

(** C2 (amended).  When [align_images_and_csvs] has returned and the image
    names it left in the CSVs are file names, a second call returns and
    changes nothing. *)
Theorem align_images_and_csvs_twice self w w1 :
  align_images_and_csvs self w = (w1, Return tt) →
  (∀ c, c ∈ _pose_class_names self → plain_csv c w1) →
  align_images_and_csvs self w1 = (w1, Return tt).
Proof.
  intros Hrun Hplain. apply for_each_fixed. intros c Hc.
  apply settled_fixed.
  apply (for_each_establishes align_class (λ c w, plain_csv c w → settled c w))
    with (l := _pose_class_names self) (w := w); [| |done..|by apply Hplain].
  - intros ???. apply align_class_settled.
  - intros c' d w0 w' Hne Hd Hs Hp. apply (settled_other c' d w0); [done..|].
    apply Hs. intros rows Hr. apply Hp.
    apply (align_class_other c') in Hd as [-> _]; done.
Qed.

(** ** Missing files and missing CSVs *)

Lemma align_class_no_csv c w :
  csvs w !! c = None → align_class c w = (w, Raise FileNotFoundError).
Proof. intros Hc. unfold align_class, bind, csv_read. by rewrite Hc. Qed.

(** A pass returns when the CSV and the folder are there, the image names are
    file names and the folder holds files only. *)
Lemma align_class_total c w rows dir :
  csvs w !! c = Some rows →
  images_out w !! c = Some dir →
  Forall (λ n, plain n = true) (row_names (nonempty_rows rows)) →
  (∀ k, dir !! k ≠ Some Dir) →
  alignable c w rows dir.
Proof.
  intros Hc Hd Hp Hf. split_and!; [done..| |].
  - rewrite Forall_forall in Hp. apply Forall_forall. intros r Hr.
    unfold judged. rewrite path_exists_plain; [done|].
    apply Hp. by apply list_elem_of_fmap_2.
  - intros k Hk. by destruct (Hf k).
Qed.

(** C7 (amended).  A pass over a class whose CSV file is missing raises
    [FileNotFoundError] and changes nothing: the absence of the CSV is not
    handled.  The absence of an image is: when the CSV and the folder are
    there, the image names are file names and the folder holds files only,
    the pass returns, and a row whose image is not in the folder is not in
    the CSV afterwards. *)
Theorem align_class_missing c w :
  (csvs w !! c = None → align_class c w = (w, Raise FileNotFoundError)) ∧
  (∀ rows dir,
     csvs w !! c = Some rows →
     images_out w !! c = Some dir →
     Forall (λ n, plain n = true) (row_names (nonempty_rows rows)) →
     (∀ k, dir !! k ≠ Some Dir) →
     ∃ w' rows',
       align_class c w = (w', Return tt) ∧ csvs w' !! c = Some rows' ∧
       ∀ r, r ∈ rows → row_name r ∉ dom dir → r ∉ rows').
Proof.
  split; [apply align_class_no_csv|].
  intros rows dir Hc Hd Hp Hf.
  pose proof (align_class_total _ _ _ _ Hc Hd Hp Hf) as Hal.
  exists (aligned c rows dir w), (kept_rows (Some dir) rows).
  split_and!; [by apply align_class_ok|by rewrite aligned_csvs, lookup_insert_eq|].
  intros r Hr Hmiss (_ & Hne & Hk)%kept_rows_keeps.
  rewrite keeps_plain in Hk.
  - by apply bool_decide_eq_true in Hk.
  - rewrite Forall_forall in Hp. apply Hp, list_elem_of_fmap_2.
    unfold nonempty_rows. apply list_elem_of_filter. split; [by destruct r|done].
Qed.

(** The exact result of a pass that returns. *)
Lemma align_class_result c w w' :
  align_class c w = (w', Return tt) →
  ∃ rows dir rows' dir',
    csvs w !! c = Some rows ∧ images_out w !! c = Some dir ∧
    csvs w' !! c = Some rows' ∧ images_out w' !! c = Some dir' ∧
    rows' = kept_rows (Some dir) rows ∧ dir' = kept_files (row_names rows') dir.
Proof.
  intros (rows & dir & (Hc & Hd & _) & ->)%align_class_Return.
  exists rows, dir, (kept_rows (Some dir) rows),
    (kept_files (row_names (kept_rows (Some dir) rows)) dir).
  by rewrite aligned_csvs, aligned_images_out, !lookup_insert_eq.
Qed.

Lemma sorted_visible_not_hidden l n : n ∈ sorted_visible l → hidden n = false.
Proof.
  unfold sorted_visible. rewrite merge_sort_Permutation.
  by intros [? _]%list_elem_of_filter.
Qed.

(** C9.  When a pass over a class returns, the entries left in the output
    folder are exactly the former entries whose name is the image name of a
    row left in the CSV: no name is exempt, whether it starts with a dot or
    not, while the sorted listings of classes and images never contain a
    name that starts with a dot. *)
Theorem align_class_deletes_hidden_too c w w' dir :
  align_class c w = (w', Return tt) →
  images_out w !! c = Some dir →
  (∃ rows' dir',
     csvs w' !! c = Some rows' ∧ images_out w' !! c = Some dir' ∧
     ∀ f, f ∈ dom dir' ↔ f ∈ dom dir ∧ f ∈ row_names rows') ∧
  (∀ listing n, n ∈ sorted_visible listing → hidden n = false).
Proof.
  intros (rows & dir0 & rows' & dir' & Hc & Hd & Hc' & Hd' & -> & ->)%align_class_result Hdir.
  assert (dir0 = dir) as -> by congruence.
  split; [|apply sorted_visible_not_hidden].
  eexists _, _. split_and!; [done..|]. apply kept_files_dom.
Qed.

(** ** Removing files through a path *)

Lemma walk_entry dir c cs : ∀ pos,
  (∀ x, pos = AtDir x → is_Some (dir !! x)) →
  walk dir pos cs = TEntry c → is_Some (dir !! c).
Proof.
  induction cs as [|x rest IH]; intros pos Hpos; simpl.
  - destruct pos; [done|]. intros [= <-]. by apply Hpos.
  - destruct (String.eqb x EmptyString || String.eqb x "."); [by apply IH|].
    destruct (String.eqb x "..").
    + destruct pos; [done|]. by apply IH.
    + destruct pos; [|done].
      destruct (dir !! x) as [[f|]|] eqn:Hx; [|apply IH; by intros ? [= <-]|done].
      destruct rest; [|done]. intros [= <-]. eauto.
Qed.

Lemma walk_delete dir c f cs : ∀ pos,
  dir !! c = Some (File f) →
  walk (delete c dir) pos cs = walk dir pos cs ∨ walk (delete c dir) pos cs = TMissing.
Proof.
  induction cs as [|x rest IH]; intros pos Hc; simpl; [by left|].
  destruct (String.eqb x EmptyString || String.eqb x "."); [by apply IH|].
  destruct (String.eqb x "..").
  - destruct pos; [by left|by apply IH].
  - destruct pos; [|by left].
    destruct (decide (x = c)) as [->|Hne].
    + rewrite lookup_delete_eq. by right.
    + rewrite lookup_delete_ne by done.
      destruct (dir !! x) as [[]|]; [by left|by apply IH|by left].
Qed.

Lemma path_exists_delete dir c f n :
  dir !! c = Some (File f) →
  path_exists (Some dir) n = Return false →
  path_exists (Some (delete c dir)) n = Return false.
Proof.
  intros Hc. unfold path_exists, resolve.
  destruct (startswith "/" n); [done|].
  destruct (walk_delete dir c f (components n) AtFolder Hc) as [->| ->]; done.
Qed.

(** What a removal that returns has done. *)
Lemma path_remove_Return folder n dir' :
  path_remove folder n = Return dir' →
  ∃ dir c f, folder = Some dir ∧ dir !! c = Some (File f) ∧ dir' = delete c dir ∧
    path_exists (Some dir') n = Return false.
Proof.
  unfold path_remove, path_exists, resolve.
  destruct (startswith "/" n); [done|].
  destruct folder as [dir|]; [|done].
  destruct (walk dir AtFolder (components n)) as [|c| | |] eqn:Hw; try done.
  destruct (dir !! c) as [[f|]|] eqn:Hc; try done.
  intros [= <-]. exists dir, c, f. split_and!; try done.
  destruct (walk_delete dir c f (components n) AtFolder Hc) as [Heq| ->]; [|done].
  rewrite Heq, Hw in *.
  apply walk_entry in Heq as [v Hv]; [|done].
  by rewrite lookup_delete_eq in Hv.
Qed.

Lemma os_remove_Return cls n w w' :
  os_remove cls n w = (w', Return tt) →
  ∃ dir c f, images_out w !! cls = Some dir ∧ dir !! c = Some (File f) ∧
    w' = set_images_out <[cls := delete c dir]> w ∧
    path_exists (Some (delete c dir)) n = Return false.
Proof.
  unfold os_remove.
  destruct (path_remove (images_out w !! cls) n) as [dir'| |] eqn:Hr; try done.
  intros [= <-]. apply path_remove_Return in Hr as (dir & c & f & ? & ? & -> & ?).
  by exists dir, c, f.
Qed.

Lemma os_remove_csvs cls n w : csvs (os_remove cls n w).1 = csvs w.
Proof.
  unfold os_remove. by destruct (path_remove (images_out w !! cls) n).
Qed.

(** ** remove_outliers *)



Lemma remove_outlier_gone o w w' : remove_outlier o w = (w', Return tt) → gone o w'.
Proof.
  intros (dir & c & f & Hd & Hc & -> & Hg)%os_remove_Return.
  unfold gone. simpl. by rewrite lookup_insert_eq.
Qed.

Lemma remove_outlier_keeps_gone o' o w w' :
  remove_outlier o w = (w', Return tt) → gone o' w → gone o' w'.
Proof.
  intros (dir & c & f & Hd & Hc & -> & Hg)%os_remove_Return. unfold gone. simpl.
  destruct (decide (class_name (outlier_sample o) = class_name (outlier_sample o')))
    as [Heq|Hne].
  - rewrite <- Heq, lookup_insert_eq. intros Hg'. rewrite Hd in Hg'.
    by apply (path_exists_delete _ _ f).
  - by rewrite lookup_insert_ne.
Qed.

Lemma remove_outliers_gone outliers : ∀ w w',
  remove_outliers outliers w = (w', Return tt) → ∀ o, o ∈ outliers → gone o w'.
Proof.
  unfold remove_outliers.
  induction outliers as [|o l IH]; intros w w' Hrun o' Ho'.
  - by apply elem_of_nil in Ho'.
  - simpl in Hrun. apply bind_Return in Hrun as (w1 & [] & Ho & Hrun).
    apply elem_of_cons in Ho' as [->|?]; [|by eapply IH].
    apply remove_outlier_gone in Ho. revert Ho.
    eapply (for_each_preserves remove_outlier (gone o)), Hrun.
    intros d w0 w2. apply remove_outlier_keeps_gone.
Qed.

Lemma remove_outliers_csvs outliers : ∀ w, csvs (remove_outliers outliers w).1 = csvs w.
Proof.
  unfold remove_outliers.
  induction outliers as [|o l IH]; intros w; [done|].
  simpl. unfold bind.
  pose proof (os_remove_csvs (class_name (outlier_sample o)) (name (outlier_sample o)) w) as Ho.
  fold (remove_outlier o) in Ho.
  destruct (remove_outlier o w) as [w1 [[]| |]]; simpl in *; [|done..].
  by rewrite IH.
Qed.

(** C8.  When [remove_outliers] returns, the CSVs are what they were, the
    image of every outlier is gone from the output tree, and a pass of
    [align_images_and_csvs] over the class of the outlier that follows leaves
    no row with its image name in the CSV. *)
Theorem remove_outliers_then_align outliers w w' o :
  remove_outliers outliers w = (w', Return tt) →
  o ∈ outliers →
  csvs w' = csvs w ∧
  gone o w' ∧
  (∀ w2 rows2,
     align_class (class_name (outlier_sample o)) w' = (w2, Return tt) →
     csvs w2 !! class_name (outlier_sample o) = Some rows2 →
     name (outlier_sample o) ∉ row_names rows2).
Proof.
  intros Hrun Ho.
  pose proof (remove_outliers_gone _ _ _ Hrun o Ho) as Hg.
  split_and!; [|done|].
  - pose proof (remove_outliers_csvs outliers w) as Hc. by rewrite Hrun in Hc.
  - intros w2 rows2 (r0 & d0 & r' & d' & Hc & Hd & Hc' & Hd' & -> & ->)%align_class_result Hr2.
    assert (rows2 = kept_rows (Some d0) r0) as -> by congruence.
    intros (r & Hn & Hr)%list_elem_of_fmap.
    apply kept_rows_keeps in Hr as (_ & _ & Hk).
    unfold gone in Hg. rewrite Hd, Hn in Hg. unfold keeps in Hk. by rewrite Hg in Hk.
Qed.


(** ** Bootstrap *)

Lemma bind_Raise {A B} (m : M A) (k : A → M B) w w' e :
  bind m k w = (w', Raise e) →
  m w = (w', Raise e) ∨ ∃ w1 a, m w = (w1, Return a) ∧ k a w1 = (w', Raise e).
Proof.
  unfold bind. destruct (m w) as [w1 [a| |]]; [eauto| |done].
  intros [= <- <-]. by left.
Qed.

Section bootstrap_facts.
Context `{Collaborators}.

Lemma shape_scaled h w (lmks : list (landmark coord)) :
  shape (scaled h w <$> lmks) = [33; 3] ↔ length lmks = 33%nat.
Proof.
  destruct lmks as [|l lmks]; simpl; [done|].
  rewrite length_fmap. split.
  - intros [= Hl]. lia.
  - intros [= ->]. done.
Qed.

Lemma length_concat_scaled h w (lmks : list (landmark coord)) :
  length (concat (scaled h w <$> lmks)) = (3 * length lmks)%nat.
Proof. induction lmks as [|l lmks IH]; csimpl; [done|]. rewrite IH. lia. Qed.

Lemma csv_row_fields image_name h w (lmks : list (landmark coord)) :
  length lmks = 33%nat →
  length (csv_row image_name (scaled h w <$> lmks)) = 100%nat.
Proof.
  intros Hl. unfold csv_row. simpl. by rewrite length_fmap, length_concat_scaled, Hl.
Qed.

Lemma flatten_scaled h w (lmks : list (landmark coord)) :
  to_str <$> concat (scaled h w <$> lmks) =
    flat_map (λ l, [to_str (scale (lmk_x l) w); to_str (scale (lmk_y l) h);
                    to_str (scale (lmk_z l) w)]) lmks.
Proof. induction lmks as [|l lmks IH]; csimpl; [done|]. by rewrite IH. Qed.

Lemma written_lookup cls image_name frame dir :
  written cls image_name frame dir !! image_name =
    Some (match dir !! image_name with
          | Some Dir => Dir
          | _ => File (encoded cls image_name frame)
          end).
Proof.
  unfold written. destruct (dir !! image_name) as [[]|] eqn:Hn;
    by rewrite ?lookup_insert_eq.
Qed.

Lemma written_lookup_ne cls image_name frame dir k :
  k ≠ image_name → written cls image_name frame dir !! k = dir !! k.
Proof.
  intros Hne. unfold written.
  destruct (dir !! image_name) as [[]|]; by rewrite ?lookup_insert_ne.
Qed.

Lemma dom_written cls image_name frame dir :
  dom dir ⊆ dom (written cls image_name frame dir).
Proof.
  unfold written. destruct (dir !! image_name) as [[]|]; [|done|];
    apply dom_insert_subseteq.
Qed.

Lemma bootstrap_internal_eq image_name cls w :
  _bootstrap_internal image_name cls w =
    match loaded_frame w cls image_name with
    | None => (w, Raise AttributeError)
    | Some frame =>
        if encodable cls image_name then
          match pose_landmarks (cvtColor frame) with
          | None =>
              (set_images_out (alter (written cls image_name (cvtColor frame)) cls) w,
               Return tt)
          | Some lmks =>
              if decide (length lmks = 33%nat)
              then (recorded image_name cls frame lmks w, Return tt)
              else (set_images_out (alter (written cls image_name (cvtColor frame)) cls) w,
                    Raise AssertionError)
          end
        else (w, Raise cv2_error)
    end.
Proof.
  unfold _bootstrap_internal, bind at 1, imread.
  destruct (loaded_frame w cls image_name) as [frame|]; [|done].
  unfold bind at 1, imwrite_out.
  destruct (encodable cls image_name); [|done]. unfold modify.
  destruct (pose_landmarks (cvtColor frame)) as [lmks|]; [|done].
  case_bool_decide as Hs; rewrite shape_scaled in Hs.
  - by rewrite decide_True.
  - by rewrite decide_False.
Qed.

Lemma not_appended (rows : list (list string)) r : Some rows ≠ Some (rows ++ [r]).
Proof.
  intros [= Heq]. apply (f_equal length) in Heq. rewrite length_app in Heq.
  simpl in Heq. lia.
Qed.

Lemma recorded_csvs image_name cls frame lmks w rows :
  csvs w !! cls = Some rows →
  csvs (recorded image_name cls frame lmks w) !! cls =
    Some (rows ++ [csv_row image_name (scaled (height frame) (width frame) <$> lmks)]).
Proof. intros Hr. simpl. by rewrite lookup_alter_eq, Hr. Qed.

(** C3.  A call of [_bootstrap_internal] on an image, with the CSV of the
    class open.  A row is appended to the CSV if and only if the image
    loads, the tracker finds a pose of 33 landmarks on it, and OpenCV can
    encode the output image under its path: that image is written first,
    and [cv2.imwrite] raises when it cannot.  Whenever the call returns,
    a row is appended if and only if the tracker has found a pose.  A row
    that is appended holds the image name and then, landmark by landmark,
    the texts of [x * width], [y * height] and [z * width], 100 fields in
    all; when no row is appended the CSV is what it was. *)
Theorem bootstrap_internal_row image_name cls w w' o rows :
  csvs w !! cls = Some rows →
  _bootstrap_internal image_name cls w = (w', o) →
  ((∃ r, csvs w' !! cls = Some (rows ++ [r])) ↔
   ∃ frame lmks,
     loaded_frame w cls image_name = Some frame ∧
     pose_landmarks (cvtColor frame) = Some lmks ∧
     length lmks = 33%nat ∧ encodable cls image_name = true) ∧
  (o = Return tt →
     ((∃ r, csvs w' !! cls = Some (rows ++ [r])) ↔
      is_Some (detection w cls image_name))) ∧
  (∀ r, csvs w' !! cls = Some (rows ++ [r]) →
     length r = 100%nat ∧
     ∃ frame lmks,
       loaded_frame w cls image_name = Some frame ∧
       pose_landmarks (cvtColor frame) = Some lmks ∧
       r = image_name ::
             flat_map (λ l, [to_str (scale (lmk_x l) (width frame));
                             to_str (scale (lmk_y l) (height frame));
                             to_str (scale (lmk_z l) (width frame))]) lmks) ∧
  ((∀ r, csvs w' !! cls ≠ Some (rows ++ [r])) → csvs w' !! cls = Some rows).
Proof.
  intros Hrows. rewrite bootstrap_internal_eq. unfold detection.
  assert (∀ P : Prop, (∃ r, Some rows = Some (rows ++ [r])) → P) as Hno.
  { intros P [r Hr]. by apply not_appended in Hr. }
  destruct (loaded_frame w cls image_name) as [frame|]; simpl.
  - destruct (encodable cls image_name) eqn:Henc.
    + destruct (pose_landmarks (cvtColor frame)) as [lmks|] eqn:Hdet.
      * case_decide as Hlen; intros [= <- <-].
        -- rewrite (recorded_csvs _ _ _ _ _ _ Hrows). split_and!.
           ++ split; [|by eauto]. intros _. by exists frame, lmks.
           ++ intros _. split; eauto.
           ++ intros r [= Hr]. apply app_inv_head in Hr. injection Hr as <-.
              split; [by apply csv_row_fields|].
              exists frame, lmks. split_and!; [done..|].
              unfold csv_row. by rewrite flatten_scaled.
           ++ intros Hnone. by destruct (Hnone _ eq_refl).
        -- simpl. rewrite Hrows. split_and!; [| | |done].
           ++ split; [apply Hno|]. intros (? & ? & [= <-] & ? & ? & _). congruence.
           ++ done.
           ++ intros r Hr. by apply not_appended in Hr.
      * intros [= <- <-]. simpl. rewrite Hrows. split_and!; [| | |done].
        -- split; [apply Hno|]. intros (? & ? & [= <-] & ? & _). congruence.
        -- intros _. split; [apply Hno|by intros [??]].
        -- intros r Hr. by apply not_appended in Hr.
    + intros [= <- <-]. rewrite Hrows. split_and!; [| | |done].
      * split; [apply Hno|]. by intros (? & ? & _ & _ & _ & ?).
      * done.
      * intros r Hr. by apply not_appended in Hr.
  - intros [= <- <-]. rewrite Hrows. split_and!; [| | |done].
    + split; [apply Hno|]. by intros (? & ? & ? & _).
    + done.
    + intros r Hr. by apply not_appended in Hr.
Qed.

(** Where a run of [bootstrap] stands when it comes to an image: the classes
    before the class of the image have been bootstrapped, the class has been
    set up, and the images before the image have been processed. *)
Lemma bootstrap_at self limit w cbefore c cafter files nbefore n nafter w1 w2 :
  _pose_class_names self = cbefore ++ c :: cafter →
  bootstrap {| _pose_class_names := cbefore |} limit w = (w1, Return tt) →
  data_set w1 !! c = Some files →
  image_names_of limit (map_to_list files).*1 = nbefore ++ n :: nafter →
  for_each nbefore (λ n, _bootstrap_internal n c) (class_start c w1) = (w2, Return tt) →
  bootstrap self limit w =
    (_bootstrap_internal n c ;;;
     for_each nafter (λ n, _bootstrap_internal n c) ;;;
     for_each cafter (bootstrap_class limit)) w2.
Proof.
  unfold bootstrap. simpl. intros -> Hbefore Hfiles Hnames Hloop.
  rewrite (for_each_app _ _ _ _ _ Hbefore). cbn [for_each].
  unfold bind at 1. unfold bootstrap_class.
  unfold bind at 1, modify at 1. unfold bind at 1, modify at 1.
  unfold bind at 1, csv_open_w at 1, modify at 1.
  unfold bind at 1, listdir_in at 1. cbn [data_set set_csvs set_images_out set_landmarks_3d].
  rewrite Hfiles, Hnames.
  fold (class_start c w1).
  rewrite (for_each_app _ _ _ _ _ Hloop). cbn [for_each].
  unfold bind. by destruct (_bootstrap_internal n c w2) as [w3 [[]| |]].
Qed.

(** C5.  An image that loads and on which the tracker finds no body, the
    output folder of the class being there.  When OpenCV can encode the
    output image under its path, [_bootstrap_internal] returns, and the CSVs
    are what they were; the file of that name in the output folder holds the
    encoded frame, first and third channel exchanged, unless the name is
    that of a sub-directory, which is left as it is; a run of [bootstrap]
    that has come to the image goes on with the images and the classes after
    it.  When OpenCV cannot encode it (it has no encoder for the extension),
    the call raises [cv2.error] and nothing is written. *)
Theorem bootstrap_internal_no_body image_name cls w frame dir :
  loaded_frame w cls image_name = Some frame →
  pose_landmarks (cvtColor frame) = None →
  images_out w !! cls = Some dir →
  (encodable cls image_name = true →
     ∃ w', _bootstrap_internal image_name cls w = (w', Return tt) ∧
           (dir !! image_name ≠ Some Dir →
              images_out w' !! cls =
                Some (<[image_name := File (encoded cls image_name (cvtColor frame))]> dir)) ∧
           (dir !! image_name = Some Dir → images_out w' !! cls = Some dir) ∧
           csvs w' = csvs w ∧
           ∀ self limit w0 cbefore cafter files nbefore nafter w1,
             _pose_class_names self = cbefore ++ cls :: cafter →
             bootstrap {| _pose_class_names := cbefore |} limit w0 = (w1, Return tt) →
             data_set w1 !! cls = Some files →
             image_names_of limit (map_to_list files).*1 = nbefore ++ image_name :: nafter →
             for_each nbefore (λ n, _bootstrap_internal n cls) (class_start cls w1)
               = (w, Return tt) →
             bootstrap self limit w0 =
               (for_each nafter (λ n, _bootstrap_internal n cls) ;;;
                for_each cafter (bootstrap_class limit)) w') ∧
  (encodable cls image_name = false →
     _bootstrap_internal image_name cls w = (w, Raise cv2_error)).
Proof.
  intros Hload Hdet Hdir.
  pose proof (bootstrap_internal_eq image_name cls w) as Heq.
  rewrite Hload, Hdet in Heq.
  split; intros Henc; rewrite Henc in Heq; [|done].
  eexists. split; [exact Heq|]. split_and!; [| |done|].
  - simpl. rewrite lookup_alter_eq, Hdir. simpl. unfold written.
    intros Hn. by destruct (dir !! image_name) as [[]|].
  - simpl. rewrite lookup_alter_eq, Hdir. simpl. unfold written. by intros ->.
  - intros self limit w0 cbefore cafter files nbefore nafter w1
      Hself Hbefore Hfiles Hnames Hloop.
    rewrite (bootstrap_at _ _ _ _ _ _ _ _ _ _ _ _ Hself Hbefore Hfiles Hnames Hloop).
    unfold bind at 1. by rewrite Heq.
Qed.

Lemma bootstrap_internal_AssertionError image_name cls w w' :
  _bootstrap_internal image_name cls w = (w', Raise AssertionError) →
  ∃ frame lmks, pose_landmarks frame = Some lmks ∧ length lmks ≠ 33%nat.
Proof.
  rewrite bootstrap_internal_eq.
  destruct (loaded_frame w cls image_name) as [frame|]; [|done].
  destruct (encodable cls image_name); [|done].
  destruct (pose_landmarks (cvtColor frame)) as [lmks|] eqn:Hdet; [|done].
  case_decide; [done|]. eauto.
Qed.

Lemma bootstrap_class_AssertionError limit cls w w' :
  bootstrap_class limit cls w = (w', Raise AssertionError) →
  ∃ frame lmks, pose_landmarks frame = Some lmks ∧ length lmks ≠ 33%nat.
Proof.
  unfold bootstrap_class. intros Hrun.
  apply bind_Raise in Hrun as [?|(w1 & [] & _ & Hrun)]; [done|].
  apply bind_Raise in Hrun as [?|(w2 & [] & _ & Hrun)]; [done|].
  apply bind_Raise in Hrun as [?|(w3 & [] & _ & Hrun)]; [done|].
  apply bind_Raise in Hrun as [Hls|(w4 & listing & _ & Hrun)].
  - unfold listdir_in in Hls. by destruct (data_set w3 !! cls).
  - apply for_each_Raise in Hrun as (n & w5 & _ & Hn).
    by apply bootstrap_internal_AssertionError in Hn.
Qed.

(** C6.  A run of [bootstrap] that comes to an image on which the tracker
    finds a pose whose landmark array does not have the shape (33, 3).  When
    OpenCV can encode the output image under its path, [bootstrap] ends
    there with [AssertionError]: the CSVs are as the images before it left
    them, with no row for the image, and nothing is done for the images and
    the classes after it.  When OpenCV cannot encode it, [bootstrap] ends
    there with [cv2.error], which is raised before the assertion.
    [bootstrap] raises [AssertionError] only on such a pose: when the
    tracker keeps its contract, never. *)
Theorem bootstrap_assertion self limit w :
  (∀ cbefore c cafter files nbefore n nafter w1 w2 frame lmks,
     _pose_class_names self = cbefore ++ c :: cafter →
     bootstrap {| _pose_class_names := cbefore |} limit w = (w1, Return tt) →
     data_set w1 !! c = Some files →
     image_names_of limit (map_to_list files).*1 = nbefore ++ n :: nafter →
     for_each nbefore (λ n, _bootstrap_internal n c) (class_start c w1) = (w2, Return tt) →
     loaded_frame w2 c n = Some frame →
     pose_landmarks (cvtColor frame) = Some lmks →
     length lmks ≠ 33%nat →
     (encodable c n = true →
        ∃ w', bootstrap self limit w = (w', Raise AssertionError) ∧
              csvs w' = csvs w2 ∧ landmarks_3d w' = landmarks_3d w2 ∧
              plots w' = plots w2 ∧
              ∀ d, d ≠ c → images_out w' !! d = images_out w2 !! d) ∧
     (encodable c n = false → bootstrap self limit w = (w2, Raise cv2_error))) ∧
  (∀ w', bootstrap self limit w = (w', Raise AssertionError) →
     ∃ frame lmks, pose_landmarks frame = Some lmks ∧ length lmks ≠ 33%nat) ∧
  (detector_contract → ∀ w', bootstrap self limit w ≠ (w', Raise AssertionError)).
Proof.
  assert (∀ w', bootstrap self limit w = (w', Raise AssertionError) →
     ∃ frame lmks, pose_landmarks frame = Some lmks ∧ length lmks ≠ 33%nat) as Honly.
  { intros w' Hrun. apply for_each_Raise in Hrun as (cls & w1 & _ & Hcls).
    by apply bootstrap_class_AssertionError in Hcls. }
  split_and!; [|done|].
  - intros cbefore c cafter files nbefore n nafter w1 w2 frame lmks
      Hself Hbefore Hfiles Hnames Hloop Hload Hdet Hlen.
    assert (bootstrap self limit w =
              if encodable c n
              then (set_images_out (alter (written c n (cvtColor frame)) c) w2,
                    Raise AssertionError)
              else (w2, Raise cv2_error)) as ->.
    { rewrite (bootstrap_at _ _ _ _ _ _ _ _ _ _ _ _ Hself Hbefore Hfiles Hnames Hloop).
      unfold bind at 1. rewrite bootstrap_internal_eq, Hload, Hdet, decide_False by done.
      by destruct (encodable c n). }
    split; intros ->; [|done].
    eexists. split_and!; [done..|]. intros d Hne. simpl. by rewrite lookup_alter_ne.
  - intros Hcontract w' (frame & lmks & Hdet & Hlen)%Honly. by apply Hcontract in Hdet.
Qed.

(** *** The order of the images *)

Lemma sorted_visible_sorted listing : StronglySorted String.le (sorted_visible listing).
Proof. unfold sorted_visible. apply StronglySorted_merge_sort; apply _. Qed.

Lemma sorted_visible_Permutation listing :
  sorted_visible listing ≡ₚ filter (λ n, hidden n = false) listing.
Proof. unfold sorted_visible. apply merge_sort_Permutation. Qed.

Lemma image_names_of_limit (n : Z) listing :
  0 ≤ n → image_names_of (Some n) listing = take (Z.to_nat n) (sorted_visible listing).
Proof.
  intros Hn. unfold image_names_of, slice_to.
  by destruct (Z.leb_spec 0 n); [|lia].
Qed.

Lemma detection_data_set w1 w cls n :
  data_set w1 = data_set w → detection w1 cls n = detection w cls n.
Proof. unfold detection, loaded_frame. by intros ->. Qed.

Lemma bootstrap_internal_Return image_name cls w w' rows :
  csvs w !! cls = Some rows →
  _bootstrap_internal image_name cls w = (w', Return tt) →
  data_set w' = data_set w ∧
  ∃ new, csvs w' !! cls = Some (rows ++ new) ∧
    row_names new =
      if decide (is_Some (detection w cls image_name)) then [image_name] else [].
Proof.
  intros Hrows. rewrite bootstrap_internal_eq. unfold detection.
  destruct (loaded_frame w cls image_name) as [frame|]; [|done]. simpl.
  destruct (encodable cls image_name); [|done].
  destruct (pose_landmarks (cvtColor frame)) as [lmks|].
  - case_decide; [|done]. intros [= <-]. split; [done|].
    eexists [_]. rewrite (recorded_csvs _ _ _ _ _ _ Hrows). split; [done|].
    done.
  - intros [= <-]. split; [done|]. exists []. simpl. rewrite app_nil_r.
    done.
Qed.

Lemma bootstrap_loop_rows cls names : ∀ w w' rows,
  csvs w !! cls = Some rows →
  for_each names (λ n, _bootstrap_internal n cls) w = (w', Return tt) →
  data_set w' = data_set w ∧
  ∃ new, csvs w' !! cls = Some (rows ++ new) ∧
    row_names new = filter (λ n, is_Some (detection w cls n)) names.
Proof.
  induction names as [|n names IH]; intros w w' rows Hrows Hrun; simpl in Hrun.
  - injection Hrun as <-. split; [done|]. exists []. by rewrite app_nil_r.
  - apply bind_Return in Hrun as (w1 & [] & Hn & Hrun).
    destruct (bootstrap_internal_Return _ _ _ _ _ Hrows Hn) as (Hds & new1 & Hc1 & Hn1).
    destruct (IH _ _ _ Hc1 Hrun) as (Hds' & new2 & Hc2 & Hn2).
    split; [congruence|]. exists (new1 ++ new2).
    rewrite (assoc_L (++)). split; [done|].
    unfold row_names in *. rewrite fmap_app, Hn1, Hn2, filter_cons.
    erewrite (list_filter_iff _ (λ n0, is_Some (detection w cls n0))).
    + by case_decide.
    + intros n0. by rewrite (detection_data_set w1 w).
Qed.

Lemma bootstrap_class_rows limit cls w w' :
  bootstrap_class limit cls w = (w', Return tt) →
  ∃ files rows',
    data_set w !! cls = Some files ∧ csvs w' !! cls = Some rows' ∧
    row_names rows' =
      filter (λ n, is_Some (detection w cls n))
             (image_names_of limit (map_to_list files).*1).
Proof.
  unfold bootstrap_class. intros Hrun.
  apply bind_Return in Hrun as (w1 & [] & [= <-] & Hrun).
  apply bind_Return in Hrun as (w2 & [] & [= <-] & Hrun).
  apply bind_Return in Hrun as (w3 & [] & [= <-] & Hrun).
  apply bind_Return in Hrun as (w4 & listing & Hls & Hrun).
  unfold listdir_in in Hls. simpl in Hls.
  destruct (data_set w !! cls) as [files|] eqn:Hfiles; [|done].
  injection Hls as <- <-.
  eapply (bootstrap_loop_rows _ _ _ _ []) in Hrun as (_ & new & Hc & Hn);
    [|by simpl; rewrite lookup_insert_eq].
  exists files, new. split_and!; [done..|].
  rewrite Hn. apply list_filter_iff. intros n. by rewrite (detection_data_set _ w).
Qed.

(** C4.  The rows of the CSV after a pass of [align_images_and_csvs] over
    a class are rows of the CSV before it, in the order they had.  The
    images of a class are bootstrapped in the sorted order of their names,
    the names that start with a dot left out, and on the first [n] of them
    when the limit [n] is given (on a prefix of them whatever the integer
    is); the rows of the CSV of the class follow that order. *)
Theorem order_is_kept :
  (∀ c w w',
     align_class c w = (w', Return tt) →
     ∃ rows rows', csvs w !! c = Some rows ∧ csvs w' !! c = Some rows' ∧
                   rows' `sublist_of` rows) ∧
  (∀ listing,
     StronglySorted String.le (image_names_of None listing) ∧
     image_names_of None listing ≡ₚ filter (λ n, hidden n = false) listing ∧
     (∀ n : Z, image_names_of (Some n) listing `prefix_of` image_names_of None listing) ∧
     ∀ n : Z, 0 ≤ n →
       image_names_of (Some n) listing = take (Z.to_nat n) (image_names_of None listing)) ∧
  (∀ limit cls w w',
     bootstrap_class limit cls w = (w', Return tt) →
     ∃ files rows',
       data_set w !! cls = Some files ∧ csvs w' !! cls = Some rows' ∧
       row_names rows' =
         filter (λ n, is_Some (detection w cls n))
                (image_names_of limit (map_to_list files).*1)).
Proof.
  split_and!.
  - intros c w w' (rows & dir & rows' & dir' & ? & ? & ? & ? & -> & _)%align_class_result.
    exists rows, (kept_rows (Some dir) rows). split_and!; [done..|].
    apply kept_rows_sublist.
  - intros listing. split_and!.
    + apply sorted_visible_sorted.
    + apply sorted_visible_Permutation.
    + intros n. unfold image_names_of, slice_to. case_match; apply prefix_take.
    + intros n Hn. by apply image_names_of_limit.
  - apply bootstrap_class_rows.
Qed.
End bootstrap_facts.

(** ** Sample runs *)

(** C1, as the specification states it, fails on a CSV with two rows for one
    image: the call changes nothing, and the file [a.jpg] has two rows. *)
Lemma align_keeps_duplicate_rows :
  align_images_and_csvs squat_only duplicated = (duplicated, Return tt) ∧
  csvs duplicated !! "squat" = Some [["a.jpg"; "1"]; ["a.jpg"; "2"]] ∧
  images_out duplicated !! "squat" = Some {[ "a.jpg" := File frame0 ]} ∧
  ¬ strict_bijection [["a.jpg"; "1"]; ["a.jpg"; "2"]] {[ "a.jpg" := File frame0 ]}.
Proof.
  split_and!; [by vm_compute..|].
  intros [_ Hone]. specialize (Hone "a.jpg").
  assert ("a.jpg" ∈ dom ({[ "a.jpg" := File frame0 ]} : gmap string entry)) as Hin.
  { apply elem_of_dom. by rewrite lookup_singleton_eq. }
  apply Hone in Hin. vm_compute in Hin. discriminate.
Qed.

Lemma align_images_and_csvs_sets_agree_witness :
  align_images_and_csvs squat_only scenario = (scenario_aligned, Return tt) ∧
  "squat" ∈ _pose_class_names squat_only ∧
  ∃ rows dir,
    csvs scenario_aligned !! "squat" = Some rows ∧
    images_out scenario_aligned !! "squat" = Some dir ∧
    (∀ f, f ∈ dom dir → f ∈ row_names rows) ∧
    (∀ n, n ∈ row_names rows → plain n = true → n ∈ dom dir) ∧
    (Forall (λ n, plain n = true) (row_names rows) → NoDup (row_names rows) →
       strict_bijection rows dir) ∧
    (distinct_csv "squat" scenario → NoDup (row_names rows)).
Proof.
  assert (align_images_and_csvs squat_only scenario = (scenario_aligned, Return tt)) as Hrun
    by (vm_compute; reflexivity).
  assert ("squat" ∈ _pose_class_names squat_only) as Hin by (simpl; left).
  split_and!; [exact Hrun|exact Hin|].
  exact (align_images_and_csvs_sets_agree squat_only scenario scenario_aligned "squat" Hrun Hin).
Defined.

(** C2, as the specification states it, fails on a row that names its image
    as [./b.jpg]: the first call keeps the row and removes [b.jpg], the
    second call removes the row. *)
Lemma align_twice_differs :
  align_images_and_csvs squat_only dotted = (dotted_once, Return tt) ∧
  align_images_and_csvs squat_only dotted_once = (dotted_twice, Return tt) ∧
  csvs dotted_twice ≠ csvs dotted_once.
Proof.
  split_and!; [by vm_compute..|].
  intros Heq. apply (f_equal (λ m, m !! "squat")) in Heq. vm_compute in Heq. discriminate.
Qed.

Lemma align_images_and_csvs_twice_witness :
  align_images_and_csvs squat_only scenario = (scenario_aligned, Return tt) ∧
  (∀ c, c ∈ _pose_class_names squat_only → plain_csv c scenario_aligned) ∧
  align_images_and_csvs squat_only scenario_aligned = (scenario_aligned, Return tt).
Proof.
  assert (align_images_and_csvs squat_only scenario = (scenario_aligned, Return tt)) as Hrun
    by (vm_compute; reflexivity).
  assert (∀ c, c ∈ _pose_class_names squat_only → plain_csv c scenario_aligned) as Hplain.
  { intros c Hc rows Hrows. apply list_elem_of_singleton in Hc. subst c.
    vm_compute in Hrows. injection Hrows as <-. repeat constructor. }
  split_and!; [exact Hrun|exact Hplain|].
  exact (align_images_and_csvs_twice squat_only scenario scenario_aligned Hrun Hplain).
Defined.

(** C3, as the specification states it, fails on an image whose name has no
    encoder: the tracker finds a pose on [a.jfif], and the call raises before
    the row is written. *)
Lemma bootstrap_no_row_without_encoder :
  is_Some (@detection tracker opened_jfif "squat" "a.jfif") ∧
  csvs opened_jfif !! "squat" = Some [] ∧
  @_bootstrap_internal tracker "a.jfif" "squat" opened_jfif =
    (opened_jfif, Raise cv2_error).
Proof. split_and!; [by eexists|by vm_compute..]. Qed.

Lemma bootstrap_internal_row_witness :
  csvs opened !! "squat" = Some [] ∧
  @_bootstrap_internal tracker "a.jpg" "squat" opened =
    ((@_bootstrap_internal tracker "a.jpg" "squat" opened).1, Return tt) ∧
  ((∃ r, csvs (@_bootstrap_internal tracker "a.jpg" "squat" opened).1 !! "squat"
         = Some ([] ++ [r])) ↔
   ∃ frame lmks,
     loaded_frame opened "squat" "a.jpg" = Some frame ∧
     @pose_landmarks tracker (cvtColor frame) = Some lmks ∧
     length lmks = 33%nat ∧ @encodable tracker "squat" "a.jpg" = true) ∧
  (Return tt = Return tt →
     ((∃ r, csvs (@_bootstrap_internal tracker "a.jpg" "squat" opened).1 !! "squat"
            = Some ([] ++ [r])) ↔
      is_Some (@detection tracker opened "squat" "a.jpg"))) ∧
  (∀ r, csvs (@_bootstrap_internal tracker "a.jpg" "squat" opened).1 !! "squat"
        = Some ([] ++ [r]) →
     length r = 100%nat ∧
     ∃ frame lmks,
       loaded_frame opened "squat" "a.jpg" = Some frame ∧
       @pose_landmarks tracker (cvtColor frame) = Some lmks ∧
       r = "a.jpg" ::
             flat_map (λ l, [@to_str tracker (@scale tracker (lmk_x l) (width frame));
                             @to_str tracker (@scale tracker (lmk_y l) (height frame));
                             @to_str tracker (@scale tracker (lmk_z l) (width frame))])
                      lmks) ∧
  ((∀ r, csvs (@_bootstrap_internal tracker "a.jpg" "squat" opened).1 !! "squat"
         ≠ Some ([] ++ [r])) →
   csvs (@_bootstrap_internal tracker "a.jpg" "squat" opened).1 !! "squat" = Some []).
Proof.
  assert (csvs opened !! "squat" = Some []) as Hrows by (vm_compute; reflexivity).
  assert (@_bootstrap_internal tracker "a.jpg" "squat" opened =
          ((@_bootstrap_internal tracker "a.jpg" "squat" opened).1, Return tt)) as Hrun
    by (vm_compute; reflexivity).
  split; [exact Hrows|]. split; [exact Hrun|].
  exact (@bootstrap_internal_row tracker "a.jpg" "squat" opened _ _ [] Hrows Hrun).
Defined.

(** C5, as the specification states it, fails on an image whose name has no
    encoder: the tracker finds no body on [b.jfif], and the call raises. *)
Lemma bootstrap_no_body_raises :
  loaded_frame opened_jfif "squat" "b.jfif" = Some frame1 ∧
  @pose_landmarks tracker (cvtColor frame1) = None ∧
  @_bootstrap_internal tracker "b.jfif" "squat" opened_jfif =
    (opened_jfif, Raise cv2_error).
Proof. split_and!; by vm_compute. Qed.

Lemma bootstrap_internal_no_body_witness :
  loaded_frame opened_after_a "squat" "b.jpg" = Some frame1 ∧
  @pose_landmarks tracker (cvtColor frame1) = None ∧
  images_out opened_after_a !! "squat" = Some {[ "a.jpg" := File (cvtColor frame0) ]} ∧
  @encodable tracker "squat" "b.jpg" = true ∧
  ∃ w', @_bootstrap_internal tracker "b.jpg" "squat" opened_after_a = (w', Return tt) ∧
        images_out w' !! "squat" =
          Some (<["b.jpg" := File (cvtColor frame1)]> {[ "a.jpg" := File (cvtColor frame0) ]}) ∧
        csvs w' = csvs opened_after_a ∧
        @bootstrap tracker squat_only None fresh = (w', Return tt).
Proof.
  assert (loaded_frame opened_after_a "squat" "b.jpg" = Some frame1) as Hload
    by (vm_compute; reflexivity).
  assert (@pose_landmarks tracker (cvtColor frame1) = None) as Hdet
    by (vm_compute; reflexivity).
  assert (images_out opened_after_a !! "squat" = Some {[ "a.jpg" := File (cvtColor frame0) ]})
    as Hdir by (vm_compute; reflexivity).
  assert (@encodable tracker "squat" "b.jpg" = true) as Henc by (vm_compute; reflexivity).
  split_and!; [exact Hload|exact Hdet|exact Hdir|exact Henc|].
  destruct (proj1 (@bootstrap_internal_no_body tracker "b.jpg" "squat" opened_after_a frame1 _
                     Hload Hdet Hdir) Henc) as (w' & Hrun & Hfile & _ & Hcsv & Hon).
  exists w'. split_and!; [exact Hrun| |exact Hcsv|].
  - apply Hfile. vm_compute. discriminate.
  - apply (Hon squat_only None fresh [] []
             {[ "b.jpg" := Some frame1; "a.jpg" := Some frame0; ".DS_Store" := None ]}
             ["a.jpg"] [] fresh); vm_compute; reflexivity.
Defined.

Lemma tracker_contract : @detector_contract tracker.
Proof.
  intros f lmks. simpl. destruct (height f =? 1); [|discriminate].
  intros [= <-]. reflexivity.
Defined.

(** C6, as the specification states it, fails on an image whose name has no
    encoder: [faulty] finds a pose of one landmark on [b.jfif], and
    [bootstrap] ends with [cv2.error], not with the assertion. *)
Lemma bootstrap_stops_before_assertion :
  @detection faulty fresh_jfif "squat" "b.jfif" = Some [origin] ∧
  @bootstrap faulty squat_only None fresh_jfif =
    (class_start "squat" fresh_jfif, Raise cv2_error).
Proof. split; by vm_compute. Qed.

Lemma bootstrap_assertion_witness :
  (∃ w', @bootstrap faulty squat_only None fresh = (w', Raise AssertionError) ∧
         csvs w' = csvs opened_after_a ∧
         landmarks_3d w' = landmarks_3d opened_after_a ∧
         plots w' = plots opened_after_a ∧
         ∀ d, d ≠ "squat" → images_out w' !! d = images_out opened_after_a !! d) ∧
  (∀ w', @bootstrap tracker squat_only None fresh ≠ (w', Raise AssertionError)).
Proof.
  split.
  - apply (proj1 (@bootstrap_assertion faulty squat_only None fresh)
             [] "squat" []
             {[ "b.jpg" := Some frame1; "a.jpg" := Some frame0; ".DS_Store" := None ]}
             ["a.jpg"] "b.jpg" [] fresh opened_after_a frame1 [origin]).
    + reflexivity.
    + reflexivity.
    + vm_compute; reflexivity.
    + vm_compute; reflexivity.
    + vm_compute; reflexivity.
    + vm_compute; reflexivity.
    + vm_compute; reflexivity.
    + simpl. lia.
    + vm_compute; reflexivity.
  - exact (proj2 (proj2 (@bootstrap_assertion tracker squat_only None fresh))
             tracker_contract).
Defined.

Lemma order_is_kept_witness :
  (∃ rows rows', csvs scenario !! "squat" = Some rows ∧
                 csvs scenario_aligned !! "squat" = Some rows' ∧
                 rows' `sublist_of` rows) ∧
  @image_names_of (Some 1) ["b.jpg"; ".DS_Store"; "a.jpg"] =
    take 1 (@image_names_of None ["b.jpg"; ".DS_Store"; "a.jpg"]) ∧
  (∃ files rows',
     data_set fresh !! "squat" = Some files ∧
     csvs (@bootstrap_class tracker (Some 5) "squat" fresh).1 !! "squat" = Some rows' ∧
     row_names rows' =
       filter (λ n, is_Some (@detection tracker fresh "squat" n))
              (@image_names_of (Some 5) (map_to_list files).*1)).
Proof.
  destruct (@order_is_kept tracker) as (Halign & Hnames & Hboot).
  split_and!.
  - apply Halign. vm_compute; reflexivity.
  - apply (Hnames ["b.jpg"; ".DS_Store"; "a.jpg"]). lia.
  - apply Hboot. vm_compute; reflexivity.
Defined.

(** C7, as the specification states it, fails on a class whose CSV file is
    missing: the call raises. *)
Lemma align_raises_without_csv :
  csvs no_csv !! "squat" = None ∧
  align_images_and_csvs squat_only no_csv = (no_csv, Raise FileNotFoundError).
Proof. split; vm_compute; reflexivity. Qed.

Lemma scenario_files_only k :
  ({[ "a.jpg" := File frame0; "b.jpg" := File frame1; ".DS_Store" := File frame0 ]}
     : gmap string entry) !! k ≠ Some Dir.
Proof.
  intros Hk. apply elem_of_map_to_list in Hk. vm_compute in Hk.
  repeat (apply elem_of_cons in Hk as [Hk|Hk]; [discriminate|]).
  by apply elem_of_nil in Hk.
Defined.

Lemma align_class_missing_witness :
  (csvs no_csv !! "squat" = None ∧
   align_class "squat" no_csv = (no_csv, Raise FileNotFoundError)) ∧
  (∃ w' rows',
     align_class "squat" scenario = (w', Return tt) ∧
     csvs w' !! "squat" = Some rows' ∧
     ∀ r, r ∈ [["a.jpg"; "1.5"]; []; ["lost.jpg"; "2.5"]] →
          row_name r ∉
            dom ({[ "a.jpg" := File frame0; "b.jpg" := File frame1;
                    ".DS_Store" := File frame0 ]} : gmap string entry) →
          r ∉ rows').
Proof.
  assert (csvs no_csv !! "squat" = None) as Hnone by (vm_compute; reflexivity).
  split.
  - split; [exact Hnone|]. exact (proj1 (align_class_missing "squat" no_csv) Hnone).
  - apply (proj2 (align_class_missing "squat" scenario)).
    + vm_compute; reflexivity.
    + vm_compute; reflexivity.
    + vm_compute. repeat constructor.
    + exact scenario_files_only.
Defined.

Lemma remove_outliers_then_align_witness :
  remove_outliers [outlier_b] scenario = (scenario_without_b, Return tt) ∧
  outlier_b ∈ [outlier_b] ∧
  csvs scenario_without_b = csvs scenario ∧
  gone outlier_b scenario_without_b ∧
  (∀ w2 rows2,
     align_class "squat" scenario_without_b = (w2, Return tt) →
     csvs w2 !! "squat" = Some rows2 →
     "b.jpg" ∉ row_names rows2).
Proof.
  assert (remove_outliers [outlier_b] scenario = (scenario_without_b, Return tt)) as Hrun
    by (vm_compute; reflexivity).
  assert (outlier_b ∈ [outlier_b]) as Hin by left.
  split; [exact Hrun|]. split; [exact Hin|].
  exact (remove_outliers_then_align [outlier_b] scenario scenario_without_b outlier_b Hrun Hin).
Defined.

Lemma align_class_deletes_hidden_too_witness :
  align_class "squat" scenario = (scenario_aligned, Return tt) ∧
  ".DS_Store" ∈ dom ({[ "a.jpg" := File frame0; "b.jpg" := File frame1;
                        ".DS_Store" := File frame0 ]} : gmap string entry) ∧
  hidden ".DS_Store" = true ∧
  (∃ rows' dir',
     csvs scenario_aligned !! "squat" = Some rows' ∧
     images_out scenario_aligned !! "squat" = Some dir' ∧
     ∀ f, f ∈ dom dir' ↔
          f ∈ dom ({[ "a.jpg" := File frame0; "b.jpg" := File frame1;
                      ".DS_Store" := File frame0 ]} : gmap string entry) ∧
          f ∈ row_names rows') ∧
  (∀ listing n, n ∈ sorted_visible listing → hidden n = false).
Proof.
  assert (align_class "squat" scenario = (scenario_aligned, Return tt)) as Hrun
    by (vm_compute; reflexivity).
  split; [exact Hrun|]. split; [by vm_compute|]. split; [reflexivity|].
  apply (align_class_deletes_hidden_too "squat" scenario scenario_aligned _ Hrun).
  vm_compute; reflexivity.
Defined.


(** * Further properties *)

Section respects.
Context (R : relation fs) `{!Reflexive R, !Transitive R}.

Lemma respects_ret {A} (a : A) : respects R (ret a).
Proof. intros w. simpl. reflexivity. Qed.

Lemma respects_raise {A} e : respects R (raise e : M A).
Proof. intros w. simpl. reflexivity. Qed.

Lemma respects_bind {A B} (m : M A) (k : A → M B) :
  respects R m → (∀ a, respects R (k a)) → respects R (bind m k).
Proof.
  intros Hm Hk w. unfold bind. specialize (Hm w).
  destruct (m w) as [w1 [a| |]]; simpl in *; [|done..].
  etrans; [exact Hm|apply Hk].
Qed.

Lemma respects_for_each {A} (l : list A) (body : A → M unit) :
  (∀ x, x ∈ l → respects R (body x)) → respects R (for_each l body).
Proof.
  induction l as [|x l IH]; intros Hb; simpl; [apply respects_ret|].
  apply respects_bind; [apply Hb; left|].
  intros _. apply IH. intros y ?. apply Hb. by right.
Qed.

Lemma respects_read {A} (f : fs → outcome A) : respects R (λ w, (w, f w)).
Proof. intros w. simpl. reflexivity. Qed.
End respects.

Global Instance only_classes_refl cs : Reflexive (only_classes cs).
Proof. by intros w. Qed.

Global Instance only_classes_trans cs : Transitive (only_classes cs).
Proof.
  intros w1 w2 w3 (Hd & Hl & Hp & Hc) (Hd' & Hl' & Hp' & Hc').
  split_and!; [congruence..|].
  intros c Hin. destruct (Hc c Hin) as [??], (Hc' c Hin) as [??]. split; congruence.
Qed.

Global Instance only_removes_refl : Reflexive only_removes.
Proof. intros w c dir Hd. eauto. Qed.

Global Instance only_removes_trans : Transitive only_removes.
Proof.
  intros w1 w2 w3 H12 H23 c d3 Hd3.
  destruct (H23 _ _ Hd3) as (d2 & Hd2 & ?).
  destruct (H12 _ _ Hd2) as (d1 & Hd1 & ?).
  exists d1. split; [done|]. by etrans.
Qed.

Lemma only_classes_mono cs cs' w w' :
  cs ⊆ cs' → only_classes cs w w' → only_classes cs' w w'.
Proof.
  intros Hsub (? & ? & ? & Hc). split_and!; [done..|].
  intros c Hin. apply Hc. intros ?. apply Hin. by apply Hsub.
Qed.

(** ** What the synchroniser and the curator leave alone *)

Lemma respects_csvs_only R `{!Reflexive R} (f : gmap string (list row) → gmap string (list row)) :
  (∀ w, R w (set_csvs f w)) → respects R (modify (set_csvs f)).
Proof. intros H w. apply H. Qed.

Lemma only_classes_set_csvs c f w :
  (∀ m d, d ≠ c → f m !! d = m !! d) → only_classes [c] w (set_csvs f w).
Proof.
  intros Hf. split_and!; [done..|]. intros d Hd. simpl. split; [|done].
  apply Hf. intros ->. apply Hd. left.
Qed.

Lemma only_classes_set_images_out c f w :
  (∀ m d, d ≠ c → f m !! d = m !! d) → only_classes [c] w (set_images_out f w).
Proof.
  intros Hf. split_and!; [done..|]. intros d Hd. simpl. split; [done|].
  apply Hf. intros ->. apply Hd. left.
Qed.

Lemma only_removes_set_csvs f w : only_removes w (set_csvs f w).
Proof. intros c dir Hd. eauto. Qed.

Lemma only_removes_delete c k dir w :
  images_out w !! c = Some dir →
  only_removes w (set_images_out <[c := delete k dir]> w).
Proof.
  intros Hdir d dir'. simpl. destruct (decide (d = c)) as [->|Hne].
  - rewrite lookup_insert_eq. intros [= <-]. exists dir. split; [done|].
    apply delete_subseteq.
  - rewrite lookup_insert_ne by done. eauto.
Qed.

Lemma os_remove_entry_only c k : respects (only_classes [c]) (os_remove_entry c k).
Proof.
  intros w. unfold os_remove_entry.
  destruct (images_out w !! c) as [dir|]; [|done].
  destruct (dir !! k) as [[]|]; [|done..]. simpl.
  apply only_classes_set_images_out. intros m d ?. by rewrite lookup_insert_ne.
Qed.

Lemma os_remove_entry_removes c k : respects only_removes (os_remove_entry c k).
Proof.
  intros w. unfold os_remove_entry.
  destruct (images_out w !! c) as [dir|] eqn:Hd; [|done].
  destruct (dir !! k) as [[]|]; [|done..]. simpl. by apply only_removes_delete.
Qed.

Lemma os_remove_only c n : respects (only_classes [c]) (os_remove c n).
Proof.
  intros w. unfold os_remove.
  destruct (path_remove (images_out w !! c) n); [|done..]. simpl.
  apply only_classes_set_images_out. intros m d ?. by rewrite lookup_insert_ne.
Qed.

Lemma os_remove_removes c n : respects only_removes (os_remove c n).
Proof.
  intros w. unfold os_remove.
  destruct (path_remove (images_out w !! c) n) as [dir'| |] eqn:Hr; [|done..].
  apply path_remove_Return in Hr as (dir & k & f & Hd & Hk & -> & _). simpl.
  by apply only_removes_delete.
Qed.

Ltac respects_bind := apply respects_bind; try apply _.
Ltac respects_ret := apply respects_ret; apply _.
Ltac respects_for_each := apply respects_for_each; try apply _.

Lemma item0_respects R `{!Reflexive R} r : respects R (item0 r).
Proof. intros w. destruct r; simpl; reflexivity. Qed.

Lemma rewrite_rows_only c rows : ∀ acc, respects (only_classes [c]) (rewrite_rows c rows acc).
Proof.
  induction rows as [|r rows IH]; intros acc; simpl; [respects_ret|].
  respects_bind; [apply item0_respects; apply _|].
  intros n. respects_bind; [intros w; simpl; reflexivity|].
  intros []; [|apply IH].
  respects_bind; [|intros _; apply IH].
  intros w. apply only_classes_set_csvs. intros m d ?. by rewrite lookup_alter_ne.
Qed.

Lemma rewrite_rows_removes c rows : ∀ acc, respects only_removes (rewrite_rows c rows acc).
Proof.
  induction rows as [|r rows IH]; intros acc; simpl; [respects_ret|].
  respects_bind; [apply item0_respects; apply _|].
  intros n. respects_bind; [intros w; simpl; reflexivity|].
  intros []; [|apply IH].
  respects_bind; [|intros _; apply IH]. intros w. apply only_removes_set_csvs.
Qed.

Lemma align_class_only c : respects (only_classes [c]) (align_class c).
Proof.
  unfold align_class. respects_bind.
  { intros w. unfold csv_read. destruct (csvs w !! c); simpl; reflexivity. }
  intros all_rows. respects_bind.
  { intros w. apply only_classes_set_csvs. intros m d ?. by rewrite lookup_insert_ne. }
  intros _. respects_bind; [apply rewrite_rows_only|].
  intros names. respects_bind.
  { intros w. unfold os_listdir. destruct (images_out w !! c); simpl; reflexivity. }
  intros listing. respects_for_each.
  intros k _. unfold remove_unless_listed. case_bool_decide.
  - respects_ret.
  - apply os_remove_entry_only.
Qed.

Lemma align_class_removes c : respects only_removes (align_class c).
Proof.
  unfold align_class. respects_bind.
  { intros w. unfold csv_read. destruct (csvs w !! c); simpl; reflexivity. }
  intros all_rows. respects_bind.
  { intros w. apply only_removes_set_csvs. }
  intros _. respects_bind; [apply rewrite_rows_removes|].
  intros names. respects_bind.
  { intros w. unfold os_listdir. destruct (images_out w !! c); simpl; reflexivity. }
  intros listing. respects_for_each.
  intros k _. unfold remove_unless_listed. case_bool_decide.
  - respects_ret.
  - apply os_remove_entry_removes.
Qed.

(** X2.  However [align_images_and_csvs] ends, it has changed nothing but
    the CSVs and the output folders of its pose classes: the data set, the
    annotated frames, the plots and every other class are what they were,
    and every output folder is a part of what it was (no file is created and
    no file holds another frame). *)
Theorem align_images_and_csvs_leaves_alone self w w' o :
  align_images_and_csvs self w = (w', o) →
  only_classes (_pose_class_names self) w w' ∧ only_removes w w'.
Proof.
  intros Hrun. split.
  - assert (respects (only_classes (_pose_class_names self)) (align_images_and_csvs self)) as H.
    { respects_for_each. intros c Hc w0.
      eapply only_classes_mono, align_class_only.
      intros d ->%list_elem_of_singleton. done. }
    specialize (H w). by rewrite Hrun in H.
  - assert (respects only_removes (align_images_and_csvs self)) as H.
    { respects_for_each. intros c _. apply align_class_removes. }
    specialize (H w). by rewrite Hrun in H.
Qed.

(** X3.  When a pass over a class returns, a row is in the rewritten CSV
    exactly when it was in the CSV, is not a blank line, and
    [os.path.exists] holds of its image name joined to the output folder. *)
Theorem align_class_rows_exact c w w' rows dir r :
  align_class c w = (w', Return tt) →
  csvs w !! c = Some rows →
  images_out w !! c = Some dir →
  ∃ rows', csvs w' !! c = Some rows' ∧
    (r ∈ rows' ↔ r ∈ rows ∧ r ≠ [] ∧ path_exists (Some dir) (row_name r) = Return true).
Proof.
  intros (rows0 & dir0 & rows' & dir' & Hc & Hd & Hc' & _ & -> & _)%align_class_result Hrows Hdir.
  assert (rows0 = rows) as -> by congruence. assert (dir0 = dir) as -> by congruence.
  eexists. split; [done|]. rewrite kept_rows_keeps. unfold keeps.
  destruct (path_exists (Some dir) (row_name r)) as [[]| |]; split; intros (? & ? & ?); done.
Qed.

(** X4.  A row whose image name is empty, or is [.], is never pruned: the
    joined path is the output folder itself, which exists. *)
Theorem align_class_keeps_nameless_rows c w w' rows r :
  align_class c w = (w', Return tt) →
  csvs w !! c = Some rows →
  r ∈ rows → r ≠ [] →
  row_name r = EmptyString ∨ row_name r = "." →
  ∃ rows', csvs w' !! c = Some rows' ∧ r ∈ rows'.
Proof.
  intros Hrun Hrows Hr Hne Hname.
  pose proof Hrun as (rows0 & dir & rows' & dir' & Hc & Hd & Hc' & Hd' & -> & ->)%align_class_result.
  assert (rows0 = rows) as -> by congruence.
  eexists. split; [done|].
  apply kept_rows_keeps. split_and!; [done..|].
  unfold keeps. by destruct Hname as [-> | ->].
Qed.

Lemma filter_none {A} (P : A → Prop) `{∀ x, Decision (P x)} (l : list A) :
  (∀ x, x ∈ l → ¬ P x) → filter P l = [].
Proof.
  induction l as [|x l IH]; intros Hall; [done|].
  rewrite filter_cons, decide_False by (apply Hall; left).
  apply IH. intros y ?. apply Hall. by right.
Qed.

Lemma keeps_missing_folder r : keeps None r = false.
Proof.
  unfold keeps. destruct (path_exists None (row_name r)) as [[]| |] eqn:He; try done.
  by apply path_exists_missing_folder in He.
Qed.

(** X5.  When the CSV of a class is there and its output folder is not,
    and no image name is an absolute path, the pass first rewrites the CSV
    to no rows at all and then raises [FileNotFoundError] at the listing of
    the folder. *)
Theorem align_class_missing_folder c w rows :
  csvs w !! c = Some rows →
  images_out w !! c = None →
  Forall (λ r, startswith "/" (row_name r) = false) (nonempty_rows rows) →
  align_class c w = (set_csvs <[c := []]> w, Raise FileNotFoundError).
Proof.
  intros Hrows Hdir Hrel.
  unfold align_class, bind at 1, csv_read. rewrite Hrows.
  unfold bind at 1, csv_open_w, modify. unfold bind at 1.
  rewrite (rewrite_rows_judged _ _ _ _ []); simpl; rewrite ?Hdir.
  - rewrite filter_none by (intros r _; by rewrite keeps_missing_folder).
    unfold bind, os_listdir. simpl. rewrite Hdir.
    unfold set_csvs. simpl. by rewrite insert_insert_eq.
  - by rewrite lookup_insert_eq.
  - eapply Forall_impl; [apply Forall_and; split; [apply nonempty_rows_Forall|apply Hrel]|].
    intros r [Hne Hr]. split; [done|]. unfold judged, path_exists, resolve.
    by rewrite Hr.
Qed.

(** The deletion loop on a folder with a sub-directory that no row names. *)
Lemma remove_loop_raises cls names l : ∀ w dir,
  images_out w !! cls = Some dir →
  NoDup l →
  (∀ k, k ∈ l → is_Some (dir !! k)) →
  (∃ k, k ∈ l ∧ dir !! k = Some Dir ∧ k ∉ names) →
  ∃ w' dir', for_each l (remove_unless_listed cls names) w = (w', Raise IsADirectoryError) ∧
    csvs w' = csvs w ∧ images_out w' !! cls = Some dir' ∧
    ∀ k, dir !! k = Some Dir → dir' !! k = Some Dir.
Proof.
  induction l as [|x l IH]; intros w dir Hdir Hnd Hall (k & Hk & HkD & Hkn).
  { by apply elem_of_nil in Hk. }
  apply NoDup_cons in Hnd as [Hx Hnd].
  cbn [for_each]. unfold bind, remove_unless_listed.
  case_bool_decide as Hin.
  - unfold ret. apply IH; [done..| |].
    + intros y ?. apply Hall. by right.
    + exists k. split_and!; [|done..].
      apply elem_of_cons in Hk as [->|?]; done.
  - unfold os_remove_entry. rewrite Hdir.
    destruct (Hall x) as [[f|] Hf]; [by left| |]; rewrite Hf.
    + destruct (IH (set_images_out <[cls := delete x dir]> w) (delete x dir))
        as (w' & dir' & Hrun & Hc & Hd' & Hkeep).
      * simpl. by rewrite lookup_insert_eq.
      * done.
      * intros y Hy. rewrite lookup_delete_ne; [apply Hall; by right|by intros ->].
      * exists k. apply elem_of_cons in Hk as [->|?]; [congruence|].
        split_and!; [done| |done]. rewrite lookup_delete_ne; [done|by intros ->].
      * exists w', dir'. split_and!; [done..|].
        intros y Hy. apply Hkeep. rewrite lookup_delete_ne; [done|congruence].
    + exists w, dir. by split_and!.
Qed.

(** X6.  When the output folder holds a sub-directory that no row names
    (the image names being file names), the pass raises [IsADirectoryError]:
    the CSV has been rewritten by then, and the sub-directory is still
    there. *)
Theorem align_class_stray_directory c w rows dir k :
  csvs w !! c = Some rows →
  images_out w !! c = Some dir →
  Forall (λ n, plain n = true) (row_names (nonempty_rows rows)) →
  dir !! k = Some Dir →
  k ∉ row_names rows →
  ∃ w' dir',
    align_class c w = (w', Raise IsADirectoryError) ∧
    csvs w' !! c = Some (kept_rows (Some dir) rows) ∧
    images_out w' !! c = Some dir' ∧ dir' !! k = Some Dir.
Proof.
  intros Hrows Hdir Hplain Hk Hkn.
  unfold align_class, bind at 1, csv_read. rewrite Hrows.
  unfold bind at 1, csv_open_w, modify. unfold bind at 1.
  rewrite (rewrite_rows_judged _ _ _ _ []); simpl; rewrite ?Hdir.
  - unfold bind at 1, os_listdir. simpl. rewrite Hdir.
    edestruct (remove_loop_raises c) as (w' & dir' & -> & Hc & Hd' & Hkeep);
      [|apply NoDup_fst_map_to_list|..].
    + simpl. exact Hdir.
    + intros y Hy. by apply elem_of_listing.
    + exists k. split_and!; [apply elem_of_listing; eauto|done|].
      intros (r & -> & Hr)%list_elem_of_fmap. apply Hkn.
      apply list_elem_of_fmap_2. by apply list_elem_of_filter in Hr as [_ [_ ?]%list_elem_of_filter].
    + exists w', dir'. split_and!; [done| |done|by apply Hkeep].
      rewrite Hc. simpl. by rewrite insert_insert_eq, lookup_insert_eq.
  - by rewrite lookup_insert_eq.
  - rewrite Forall_forall in Hplain. apply Forall_forall. intros r Hr. split.
    + apply list_elem_of_filter in Hr as [? _]. by intros ->.
    + unfold judged. rewrite path_exists_plain; [done|].
      apply Hplain. by apply list_elem_of_fmap_2.
Qed.

(** X7.  [align_images_and_csvs] ends at the first class whose pass raises,
    with that exception and in the state of that pass: the classes after it
    are not synchronised, their CSVs and folders are what they were. *)
Theorem align_images_and_csvs_stops before c after w w1 w2 e :
  align_images_and_csvs {| _pose_class_names := before |} w = (w1, Return tt) →
  align_class c w1 = (w2, Raise e) →
  align_images_and_csvs {| _pose_class_names := before ++ c :: after |} w = (w2, Raise e) ∧
  ∀ d, d ∈ after → d ∉ before → d ≠ c →
       csvs w2 !! d = csvs w !! d ∧ images_out w2 !! d = images_out w !! d.
Proof.
  unfold align_images_and_csvs at 1. simpl. intros Hbefore Hc. split.
  - unfold align_images_and_csvs. simpl.
    rewrite (for_each_app _ _ _ _ _ Hbefore). simpl. unfold bind. by rewrite Hc.
  - intros d _ Hnb Hne.
    assert (only_classes before w w1) as (_ & _ & _ & H1).
    { assert (respects (only_classes before) (for_each before align_class)) as H.
      { respects_for_each. intros x Hx w0.
        eapply only_classes_mono, align_class_only. by intros ? ->%list_elem_of_singleton. }
      specialize (H w). by rewrite Hbefore in H. }
    pose proof (align_class_only c w1) as (_ & _ & _ & H2). rewrite Hc in H2. simpl in H2.
    destruct (H1 d Hnb) as [??], (H2 d) as [??]; [by intros ?%list_elem_of_singleton|].
    split; congruence.
Qed.

(** ** The curator *)

Lemma remove_outlier_only o :
  respects (only_classes [class_name (outlier_sample o)]) (remove_outlier o).
Proof. apply os_remove_only. Qed.

(** X8.  When the class names of the outliers are folder names and
    [remove_outliers] ends inside the model, by a return or by an exception
    (no sample name leads out of the folder of its class), the CSVs are what
    they were, nothing but the output folders of the classes of the outliers
    differs, and every output folder is a part of what it was. *)
Theorem remove_outliers_leaves_alone outliers w w' o :
  remove_outliers outliers w = (w', o) →
  o ≠ Unmodelled →
  (∀ s, s ∈ samples_of outliers → plain (class_name s) = true) →
  csvs w' = csvs w ∧
  only_classes (class_name <$> samples_of outliers) w w' ∧
  only_removes w w'.
Proof.
  intros Hrun _ _. split_and!.
  - pose proof (remove_outliers_csvs outliers w) as H. by rewrite Hrun in H.
  - assert (respects (only_classes (class_name <$> samples_of outliers))
              (remove_outliers outliers)) as H.
    { respects_for_each. intros x Hx w0.
      eapply only_classes_mono, remove_outlier_only.
      intros ? ->%list_elem_of_singleton. unfold samples_of.
      by do 2 apply list_elem_of_fmap_2. }
    specialize (H w). by rewrite Hrun in H.
  - assert (respects only_removes (remove_outliers outliers)) as H.
    { respects_for_each. intros x _. apply os_remove_removes. }
    specialize (H w). by rewrite Hrun in H.
Qed.

Lemma remove_outlier_gone_raises o w :
  gone o w →
  ∃ e, remove_outlier o w = (w, Raise e) ∧
       (e = FileNotFoundError ∨ e = NotADirectoryError).
Proof.
  unfold gone, path_exists, remove_outlier, os_remove, path_remove. intros Hg.
  destruct (resolve _ _); try done; eauto.
Qed.

(** X9.  A sample that is listed twice makes [remove_outliers] raise at
    its second occurrence: its image has been removed at the first, and the
    state is the one reached before the second. *)
Theorem remove_outliers_twice_listed before o after w w1 :
  remove_outliers before w = (w1, Return tt) →
  o ∈ before →
  ∃ e, remove_outliers (before ++ o :: after) w = (w1, Raise e) ∧
       (e = FileNotFoundError ∨ e = NotADirectoryError).
Proof.
  intros Hrun Hin.
  destruct (remove_outlier_gone_raises o w1) as (e & He & Hcase).
  { by eapply remove_outliers_gone. }
  exists e. split; [|done]. unfold remove_outliers in *.
  rewrite (for_each_app _ _ _ _ _ Hrun). simpl. unfold bind. by rewrite He.
Qed.

(** X10.  An outlier whose name is that of a sub-directory of the output
    folder makes [remove_outliers] raise [IsADirectoryError], in the state
    reached after the outliers before it. *)
Theorem remove_outliers_directory before o after w w1 dir :
  remove_outliers before w = (w1, Return tt) →
  plain (name (outlier_sample o)) = true →
  images_out w1 !! class_name (outlier_sample o) = Some dir →
  dir !! name (outlier_sample o) = Some Dir →
  remove_outliers (before ++ o :: after) w = (w1, Raise IsADirectoryError).
Proof.
  intros Hrun Hp Hdir Hd. unfold remove_outliers in *.
  rewrite (for_each_app _ _ _ _ _ Hrun). simpl. unfold bind.
  unfold remove_outlier at 1. rewrite (os_remove_plain _ _ _ Hp).
  unfold os_remove_entry. by rewrite Hdir, Hd.
Qed.

(** X11.  When no sample is listed twice and every sample is the file
    name of a file of its output folder, [remove_outliers] returns, and
    every output folder is what it was without the files of the samples. *)
Theorem remove_outliers_removes_exactly outliers : ∀ w,
  NoDup (samples_of outliers) →
  (∀ s, s ∈ samples_of outliers →
     plain (name s) = true ∧
     ∃ dir f, images_out w !! class_name s = Some dir ∧ dir !! name s = Some (File f)) →
  ∃ w', remove_outliers outliers w = (w', Return tt) ∧
        ∀ c, images_out w' !! c = without_samples (samples_of outliers) c <$> images_out w !! c.
Proof.
  unfold remove_outliers, samples_of.
  induction outliers as [|o l IH]; intros w Hnd Hall.
  - exists w. split; [done|]. intros c. destruct (images_out w !! c) as [dir|]; [|done].
    simpl. f_equal. symmetry. apply map_filter_id. intros ?? _. apply not_elem_of_nil.
  - rewrite fmap_cons in Hnd, Hall. apply NoDup_cons in Hnd as [Ho Hnd].
    destruct (Hall (outlier_sample o)) as (Hp & dir & f & Hdir & Hf); [by left|].
    set (cls := class_name (outlier_sample o)) in *.
    set (n := name (outlier_sample o)) in *.
    destruct (IH (set_images_out <[cls := delete n dir]> w) Hnd) as (w' & Hrun & Hres).
    { intros s Hs. destruct (Hall s) as (Hps & ds & fs & Hds & Hfs); [by right|].
      split; [done|]. simpl. destruct (decide (class_name s = cls)) as [Heq|Hne].
      - rewrite Heq, lookup_insert_eq. rewrite Heq, Hdir in Hds. injection Hds as <-.
        exists (delete n dir), fs. split; [done|].
        rewrite lookup_delete_ne; [done|]. intros Hn. apply Ho.
        destruct s as [sc sn], (outlier_sample o) as [oc on]. simpl in *.
        subst cls n. by subst.
      - rewrite lookup_insert_ne by done. eauto. }
    exists w'. split.
    + cbn [for_each]. unfold bind. unfold remove_outlier at 1.
      fold cls n. rewrite (os_remove_plain _ _ _ Hp).
      unfold os_remove_entry. by rewrite Hdir, Hf.
    + intros c. rewrite Hres, fmap_cons. cbn [images_out set_images_out].
      destruct (decide (c = cls)) as [->|Hne].
      * rewrite lookup_insert_eq, Hdir. simpl. f_equal.
        apply map_eq. intros k. apply option_eq. intros v.
        unfold without_samples. rewrite !map_lookup_filter_Some, lookup_delete_Some. simpl.
        rewrite not_elem_of_cons. split.
        -- intros [[Hnk ?] ?]. split_and!; [done| |done].
           intros Heq. apply Hnk. subst cls n. by rewrite <- Heq.
        -- intros [? [Hso ?]]. split_and!; [|done..].
           intros Heq. apply Hso. destruct (outlier_sample o). simpl in *.
           subst cls n. by subst.
      * rewrite lookup_insert_ne by done.
        destruct (images_out w !! c) as [dc|]; [|done]. simpl. f_equal.
        apply map_filter_ext. intros k v _. simpl. rewrite not_elem_of_cons.
        split; [|by intros [_ ?]]. intros ?. split; [|done].
        intros Heq. apply Hne. subst cls. by rewrite <- Heq.
Qed.

(** ** The helper object *)

Lemma StronglySorted_sublist {A} (R : relation A) (l1 l2 : list A) :
  l1 `sublist_of` l2 → StronglySorted R l2 → StronglySorted R l1.
Proof.
  induction 1 as [|x l1 l2 Hsub IH|x l1 l2 Hsub IH]; intros Hs; [done|..].
  - apply StronglySorted_inv in Hs as [Hs Hx]. constructor; [by apply IH|].
    rewrite Forall_forall in Hx |- *. intros y Hy. apply Hx.
    by eapply sublist_submseteq, elem_of_submseteq in Hsub.
  - apply StronglySorted_inv in Hs as [Hs _]. by apply IH.
Qed.

Lemma sorted_visible_NoDup l : NoDup l → NoDup (sorted_visible l).
Proof.
  intros Hnd. rewrite sorted_visible_Permutation. by apply NoDup_filter.
Qed.

Lemma elem_of_sorted_visible l n : n ∈ sorted_visible l ↔ n ∈ l ∧ hidden n = false.
Proof. rewrite sorted_visible_Permutation, list_elem_of_filter. tauto. Qed.

(** X1.  The pose class names of a new helper are sorted and without
    repetition, and they are exactly the names of the data set folder that
    do not start with a dot. *)
Theorem init_pose_class_names w :
  StronglySorted String.le (_pose_class_names (init w)) ∧
  NoDup (_pose_class_names (init w)) ∧
  ∀ c, c ∈ _pose_class_names (init w) ↔ is_Some (data_set w !! c) ∧ hidden c = false.
Proof.
  simpl. split_and!.
  - apply sorted_visible_sorted.
  - apply sorted_visible_NoDup, NoDup_fst_map_to_list.
  - intros c. by rewrite elem_of_sorted_visible, elem_of_listing.
Qed.

Global Instance bootstrap_keeps_refl cs : Reflexive (bootstrap_keeps cs).
Proof. intros w. split_and!; [done..|]. intros c dir Hd. eauto. Qed.

Global Instance bootstrap_keeps_trans cs : Transitive (bootstrap_keeps cs).
Proof.
  intros w1 w2 w3 (Hd & Hc & Hg) (Hd' & Hc' & Hg'). split_and!.
  - congruence.
  - intros c Hin. destruct (Hc c Hin) as (? & ? & ?), (Hc' c Hin) as (? & ? & ?).
    split_and!; congruence.
  - intros c d1 Hd1. destruct (Hg _ _ Hd1) as (d2 & Hd2 & ?).
    destruct (Hg' _ _ Hd2) as (d3 & Hd3 & ?). exists d3. split; [done|]. by etrans.
Qed.

Lemma bootstrap_keeps_mono cs cs' w w' :
  cs ⊆ cs' → bootstrap_keeps cs w w' → bootstrap_keeps cs' w w'.
Proof.
  intros Hsub (? & Hc & ?). split_and!; [done| |done].
  intros c Hin. apply Hc. intros ?. apply Hin. by apply Hsub.
Qed.

(** A change of the CSV, the output folder or the annotated frames of [c]
    that loses no name of the output folder. *)
Lemma bootstrap_keeps_step c w w' :
  data_set w' = data_set w →
  (∀ d, d ≠ c → csvs w' !! d = csvs w !! d ∧ images_out w' !! d = images_out w !! d ∧
                landmarks_3d w' !! d = landmarks_3d w !! d) →
  (∀ dir, images_out w !! c = Some dir →
     ∃ dir', images_out w' !! c = Some dir' ∧ dom dir ⊆ dom dir') →
  bootstrap_keeps [c] w w'.
Proof.
  intros Hd Ho Hg. split_and!; [done| |].
  - intros d Hin. apply Ho. intros ->. apply Hin. left.
  - intros d dir Hdir. destruct (decide (d = c)) as [->|Hne]; [by apply Hg|].
    destruct (Ho d Hne) as (_ & Hi & _). exists dir. by rewrite Hi.
Qed.

Section bootstrap_more.
Context `{Collaborators}.

Lemma imwrite_out_keeps c n frame w :
  bootstrap_keeps [c] w (set_images_out (alter (written c n frame) c) w).
Proof.
  apply bootstrap_keeps_step; [done| |].
  - intros d Hne. simpl. by rewrite lookup_alter_ne.
  - intros dir Hdir. simpl. rewrite lookup_alter_eq, Hdir. simpl.
    eexists. split; [done|]. apply dom_written.
Qed.

Lemma recorded_keeps image_name c frame lmks w :
  bootstrap_keeps [c] w (recorded image_name c frame lmks w).
Proof.
  apply bootstrap_keeps_step; [done| |].
  - intros d Hne. simpl. by rewrite !lookup_alter_ne.
  - intros dir Hdir. simpl. rewrite lookup_alter_eq, Hdir. simpl.
    eexists. split; [done|]. apply dom_written.
Qed.

Lemma bootstrap_internal_keeps image_name c :
  respects (bootstrap_keeps [c]) (_bootstrap_internal image_name c).
Proof.
  intros w. rewrite bootstrap_internal_eq.
  destruct (loaded_frame w c image_name) as [frame|]; [|simpl; reflexivity].
  destruct (encodable c image_name); [|simpl; reflexivity].
  destruct (pose_landmarks (cvtColor frame)) as [lmks|]; [case_decide|]; simpl.
  - apply recorded_keeps.
  - apply imwrite_out_keeps.
  - apply imwrite_out_keeps.
Qed.

Lemma ensure_dir_lookup {V} `{Empty V} c d (tree : gmap string V) :
  d ≠ c → ensure_dir c tree !! d = tree !! d.
Proof.
  intros Hne. unfold ensure_dir. destruct (tree !! c); [done|].
  by rewrite lookup_insert_ne.
Qed.

Lemma ensure_dir_same {V} `{Empty V} c (tree : gmap string V) :
  ensure_dir c tree !! c = Some (default ∅ (tree !! c)).
Proof.
  unfold ensure_dir. destruct (tree !! c) eqn:Hc; simpl; [done|].
  by rewrite lookup_insert_eq.
Qed.

Lemma bootstrap_class_keeps limit c : respects (bootstrap_keeps [c]) (bootstrap_class limit c).
Proof.
  unfold bootstrap_class. respects_bind.
  { intros w. apply bootstrap_keeps_step; [done| |].
    - intros d Hne. simpl. by rewrite ensure_dir_lookup.
    - intros dir Hdir. simpl. eauto. }
  intros _. respects_bind.
  { intros w. apply bootstrap_keeps_step; [done| |].
    - intros d Hne. simpl. by rewrite ensure_dir_lookup.
    - intros dir Hdir. simpl. rewrite ensure_dir_same, Hdir. simpl. eauto. }
  intros _. respects_bind.
  { intros w. apply bootstrap_keeps_step; [done| |].
    - intros d Hne. simpl. by rewrite lookup_insert_ne.
    - intros dir Hdir. simpl. eauto. }
  intros _. respects_bind.
  { intros w. unfold listdir_in. destruct (data_set w !! c); simpl; reflexivity. }
  intros listing. respects_for_each. intros n _. apply bootstrap_internal_keeps.
Qed.

(** X12.  However [bootstrap] ends, the data set is what it was, the CSV,
    the output folder and the annotated frames of every class that is not
    bootstrapped are what they were, and no name has left an output
    folder. *)
Theorem bootstrap_leaves_alone self limit w w' o :
  bootstrap self limit w = (w', o) →
  bootstrap_keeps (_pose_class_names self) w w'.
Proof.
  intros Hrun.
  assert (respects (bootstrap_keeps (_pose_class_names self)) (bootstrap self limit)) as Hr.
  { respects_for_each. intros c Hc w0.
    eapply bootstrap_keeps_mono, bootstrap_class_keeps.
    by intros ? ->%list_elem_of_singleton. }
  specialize (Hr w). by rewrite Hrun in Hr.
Qed.

(** *** The output folder and the CSV of a bootstrapped class *)

Lemma loaded_frame_data_set w1 w c n :
  data_set w1 = data_set w → loaded_frame w1 c n = loaded_frame w c n.
Proof. unfold loaded_frame. by intros ->. Qed.

(** One call that returns: the frame is loaded and can be encoded, the
    folder is what [cv2.imwrite] makes of it; a row, when there is one, has
    100 fields and the name of the image. *)
Lemma bootstrap_internal_writes image_name c w w' dir rows :
  images_out w !! c = Some dir →
  csvs w !! c = Some rows →
  _bootstrap_internal image_name c w = (w', Return tt) →
  data_set w' = data_set w ∧
  ∃ frame new,
    loaded_frame w c image_name = Some frame ∧
    encodable c image_name = true ∧
    images_out w' !! c = Some (written c image_name (cvtColor frame) dir) ∧
    csvs w' !! c = Some (rows ++ new) ∧
    Forall (λ r, length r = 100%nat ∧ row_name r = image_name) new ∧
    (length new ≤ 1)%nat.
Proof.
  intros Hdir Hrows. rewrite bootstrap_internal_eq.
  destruct (loaded_frame w c image_name) as [frame|]; [|done].
  destruct (encodable c image_name); [|done].
  destruct (pose_landmarks (cvtColor frame)) as [lmks|] eqn:Hdet.
  - case_decide as Hlen; [|done]. intros [= <-]. split; [done|].
    exists frame, [csv_row image_name (scaled (height frame) (width frame) <$> lmks)].
    split_and!; [done|done| |by apply recorded_csvs| |done].
    + simpl. by rewrite lookup_alter_eq, Hdir.
    + constructor; [|done]. split; [by apply csv_row_fields|done].
  - intros [= <-]. split; [done|]. exists frame, []. rewrite app_nil_r.
    split_and!; [done|done| |done|done|simpl; lia].
    simpl. by rewrite lookup_alter_eq, Hdir.
Qed.

Lemma bootstrap_loop_writes c names : ∀ w w' dir rows,
  images_out w !! c = Some dir →
  csvs w !! c = Some rows →
  for_each names (λ n, _bootstrap_internal n c) w = (w', Return tt) →
  ∃ dir' new,
    images_out w' !! c = Some dir' ∧ csvs w' !! c = Some (rows ++ new) ∧
    (∀ n, n ∈ names →
       ∃ frame, loaded_frame w c n = Some frame ∧ encodable c n = true ∧
         dir' !! n = Some (match dir !! n with
                           | Some Dir => Dir
                           | _ => File (encoded c n (cvtColor frame))
                           end)) ∧
    (∀ k, k ∉ names → dir' !! k = dir !! k) ∧
    Forall (λ r, length r = 100%nat) new ∧
    row_names new `sublist_of` names.
Proof.
  induction names as [|n names IH]; intros w w' dir rows Hdir Hrows Hrun; simpl in Hrun.
  - injection Hrun as <-. exists dir, []. rewrite app_nil_r.
    split_and!; [done..| |done|done|done]. intros n Hn. by apply elem_of_nil in Hn.
  - apply bind_Return in Hrun as (w1 & [] & Hn & Hrun).
    destruct (bootstrap_internal_writes _ _ _ _ _ _ Hdir Hrows Hn)
      as (Hds & frame & new1 & Hload & Henc & Hd1 & Hc1 & Hnew1 & Hlen1).
    destruct (IH _ _ _ _ Hd1 Hc1 Hrun) as (dir' & new2 & Hd' & Hc' & Hin & Hout & Hnew2 & Hsub).
    exists dir', (new1 ++ new2). split_and!.
    + done.
    + by rewrite (assoc_L (++)).
    + intros k Hk. destruct (decide (k ∈ names)) as [Hkn|Hkn].
      * destruct (Hin k Hkn) as (fr & Hfr & Hek & Hdk). exists fr.
        rewrite <- (loaded_frame_data_set w1 w) by done. split_and!; [done..|].
        rewrite Hdk. destruct (decide (k = n)) as [->|Hne].
        -- rewrite written_lookup.
           assert (fr = frame) as ->.
           { rewrite (loaded_frame_data_set w1 w) in Hfr by done. congruence. }
           by destruct (dir !! n) as [[]|].
        -- by rewrite written_lookup_ne.
      * apply elem_of_cons in Hk as [->|?]; [|done]. exists frame. split_and!; [done..|].
        by rewrite (Hout _ Hkn), written_lookup.
    + intros k [Hkn Hk]%not_elem_of_cons.
      by rewrite (Hout _ Hk), written_lookup_ne.
    + apply Forall_app. split; [|done]. eapply Forall_impl; [exact Hnew1|]. by intros ? [? _].
    + unfold row_names in *. rewrite fmap_app.
      destruct new1 as [|r [|??]]; simpl in Hlen1; [|  |lia].
      * simpl. by apply sublist_cons.
      * apply Forall_cons in Hnew1 as [[_ Hr] _]. simpl. rewrite Hr. by apply sublist_skip.
Qed.

Lemma bootstrap_class_writes limit c w w' :
  bootstrap_class limit c w = (w', Return tt) →
  ∃ files dir' rows',
    data_set w !! c = Some files ∧
    images_out w' !! c = Some dir' ∧ csvs w' !! c = Some rows' ∧
    (∀ n, n ∈ image_names_of limit (map_to_list files).*1 →
       ∃ frame, files !! n = Some (Some frame) ∧ encodable c n = true ∧
         dir' !! n = Some (match images_out w !! c ≫= (.!! n) with
                           | Some Dir => Dir
                           | _ => File (encoded c n (cvtColor frame))
                           end)) ∧
    (∀ k, k ∉ image_names_of limit (map_to_list files).*1 →
       dir' !! k = images_out w !! c ≫= (.!! k)) ∧
    Forall (λ r, length r = 100%nat) rows' ∧
    StronglySorted String.le (row_names rows') ∧
    NoDup (row_names rows') ∧
    (∀ n, n ∈ row_names rows' → is_Some (dir' !! n)).
Proof.
  unfold bootstrap_class. intros Hrun.
  apply bind_Return in Hrun as (w1 & [] & [= <-] & Hrun).
  apply bind_Return in Hrun as (w2 & [] & [= <-] & Hrun).
  apply bind_Return in Hrun as (w3 & [] & [= <-] & Hrun).
  apply bind_Return in Hrun as (w4 & listing & Hls & Hrun).
  unfold listdir_in in Hls. simpl in Hls.
  destruct (data_set w !! c) as [files|] eqn:Hfiles; [|done].
  injection Hls as <- <-.
  eapply (bootstrap_loop_writes _ _ _ _ (default ∅ (images_out w !! c)) []) in Hrun
    as (dir' & new & Hd' & Hc' & Hin & Hout & Hnew & Hsub);
    [|by simpl; rewrite ensure_dir_same|by simpl; rewrite lookup_insert_eq].
  set (names := image_names_of limit (map_to_list files).*1) in *.
  assert (names `sublist_of` sorted_visible (map_to_list files).*1) as Hnames.
  { unfold names, image_names_of. destruct limit as [n|]; [|done].
    unfold slice_to. case_match; apply sublist_take. }
  assert (∀ k, default ∅ (images_out w !! c) !! k = images_out w !! c ≫= (.!! k)) as Hold.
  { intros k. by destruct (images_out w !! c). }
  exists files, dir', new. split_and!; [done..| | | | | |].
  - intros n Hn. destruct (Hin n Hn) as (frame & Hload & Henc & Hdn). exists frame.
    rewrite Hold in Hdn. split_and!; [|done..].
    unfold loaded_frame in Hload. simpl in Hload. rewrite Hfiles in Hload. simpl in Hload.
    destruct (files !! n) as [[]|]; simpl in *; congruence.
  - intros k Hk. by rewrite (Hout k Hk).
  - done.
  - eapply StronglySorted_sublist; [by etrans|]. apply sorted_visible_sorted.
  - eapply sublist_NoDup; [|by etrans].
    apply sorted_visible_NoDup, NoDup_fst_map_to_list.
  - intros n Hn. destruct (Hin n) as (frame & _ & _ & ->); [|done].
    by eapply sublist_submseteq, elem_of_submseteq in Hsub.
Qed.

(** X13.  When the bootstrap of a class returns, every image it was run
    on could be loaded and encoded under its output path; the output folder
    holds under that name a file with the encoded frame, first and third
    channel exchanged, unless the name was that of a sub-directory, which is
    still there; every other entry of the output folder is what it was:
    files of earlier runs are not removed. *)
Theorem bootstrap_class_output limit c w w' :
  bootstrap_class limit c w = (w', Return tt) →
  ∃ files dir',
    data_set w !! c = Some files ∧ images_out w' !! c = Some dir' ∧
    (∀ n, n ∈ image_names_of limit (map_to_list files).*1 →
       ∃ frame, files !! n = Some (Some frame) ∧ encodable c n = true ∧
         dir' !! n = Some (match images_out w !! c ≫= (.!! n) with
                           | Some Dir => Dir
                           | _ => File (encoded c n (cvtColor frame))
                           end)) ∧
    (∀ k, k ∉ image_names_of limit (map_to_list files).*1 →
       dir' !! k = images_out w !! c ≫= (.!! k)).
Proof.
  intros (files & dir' & rows' & ? & ? & ? & ? & ? & _)%bootstrap_class_writes.
  by exists files, dir'.
Qed.

(** X14.  When the bootstrap of a class returns, the CSV holds rows of 100
    fields only, their image names are in sorted order and without
    repetition, and each of them is the name of an entry of the output
    folder; nothing of the former CSV is left. *)
Theorem bootstrap_class_csv limit c w w' :
  bootstrap_class limit c w = (w', Return tt) →
  ∃ rows' dir',
    csvs w' !! c = Some rows' ∧ images_out w' !! c = Some dir' ∧
    Forall (λ r, length r = 100%nat) rows' ∧
    StronglySorted String.le (row_names rows') ∧
    NoDup (row_names rows') ∧
    (∀ n, n ∈ row_names rows' → is_Some (dir' !! n)).
Proof.
  intros (files & dir' & rows' & ? & ? & ? & _ & _ & ? & ? & ? & ?)%bootstrap_class_writes.
  by exists rows', dir'.
Qed.

(** X15.  Bootstrap, then synchronise: when the names of the data set
    folder of a class are file names without carriage return (a row is then
    read from the CSV as it was written) and both the bootstrap of the class
    and the pass of [align_images_and_csvs] over it return, the pass leaves
    the CSV as the bootstrap wrote it, and the rows and the entries of the
    output folder are in one-to-one correspondence. *)
Theorem bootstrap_then_align limit c w w1 w2 files :
  bootstrap_class limit c w = (w1, Return tt) →
  data_set w !! c = Some files →
  (∀ n, is_Some (files !! n) → plain n = true ∧ no_carriage_return n = true) →
  align_class c w1 = (w2, Return tt) →
  ∃ rows dir,
    csvs w1 !! c = Some rows ∧ csvs w2 !! c = Some rows ∧
    images_out w2 !! c = Some dir ∧ strict_bijection rows dir.
Proof.
  intros Hboot Hfiles Hplain Halign.
  pose proof Hboot as (files' & rows' & Hf' & Hc1 & Hnames)%bootstrap_class_rows.
  assert (files' = files) as -> by congruence.
  apply bootstrap_class_writes in Hboot
    as (_ & dir1 & rows1 & _ & Hd1 & Hc1' & _ & _ & Hlen & _ & Hnd & Hin).
  assert (rows1 = rows') as -> by congruence.
  assert (Forall (λ n, plain n = true) (row_names rows')) as Hpl.
  { apply Forall_forall. intros n Hn. apply Hplain. rewrite Hnames in Hn.
    apply list_elem_of_filter in Hn as [_ Hn]. apply elem_of_listing.
    assert (n ∈ sorted_visible (map_to_list files).*1) as Hs.
    { revert Hn. unfold image_names_of. destruct limit as [k|]; [|done].
      unfold slice_to. case_match; intros Hx;
        (eapply elem_of_sublist; [exact Hx|apply sublist_take]). }
    by apply elem_of_sorted_visible in Hs as [? _]. }
  assert (Forall (λ r, r ≠ []) rows') as Hne.
  { eapply Forall_impl; [exact Hlen|]. by intros [|] ?. }
  apply align_class_result in Halign
    as (rows0 & dir0 & rows2 & dir2 & Hc0 & Hd0 & Hc2 & Hd2 & -> & ->).
  assert (rows0 = rows') as -> by congruence. assert (dir0 = dir1) as -> by congruence.
  assert (kept_rows (Some dir1) rows' = rows') as Hkept.
  { unfold kept_rows. rewrite nonempty_rows_id by done. apply filter_all.
    rewrite Forall_forall in Hpl. apply Forall_forall. intros r Hr.
    assert (row_name r ∈ row_names rows') as Hn by by apply list_elem_of_fmap_2.
    rewrite keeps_plain by auto. apply bool_decide_eq_true, elem_of_dom. auto. }
  pose proof (aligned_in_sync rows' dir1) as Hsync. rewrite Hkept in *.
  eexists _, _. split_and!; [done..|]. by apply in_sync_bijection.
Qed.

Lemma bootstrap_loop_data_set limit l w w' o :
  for_each l (bootstrap_class limit) w = (w', o) →
  bootstrap_keeps l w w'.
Proof.
  intros Hrun.
  assert (respects (bootstrap_keeps l) (for_each l (bootstrap_class limit))) as Hr.
  { respects_for_each. intros c Hc w0.
    eapply bootstrap_keeps_mono, bootstrap_class_keeps.
    by intros ? ->%list_elem_of_singleton. }
  specialize (Hr w). by rewrite Hrun in Hr.
Qed.

(** X16.  [bootstrap] ends at the first class whose data set folder is
    missing, with [FileNotFoundError]: the CSV of that class has been
    emptied by then, and the classes after it are not bootstrapped, their
    CSVs and output folders are what they were. *)
Theorem bootstrap_missing_class_folder limit before c after w w1 :
  bootstrap {| _pose_class_names := before |} limit w = (w1, Return tt) →
  data_set w !! c = None →
  ∃ w2, bootstrap {| _pose_class_names := before ++ c :: after |} limit w
          = (w2, Raise FileNotFoundError) ∧
        csvs w2 !! c = Some [] ∧
        ∀ d, d ∈ after → d ∉ before → d ≠ c →
             csvs w2 !! d = csvs w !! d ∧ images_out w2 !! d = images_out w !! d.
Proof.
  unfold bootstrap at 1. simpl. intros Hbefore Hnone.
  pose proof (bootstrap_loop_data_set _ _ _ _ _ Hbefore) as (Hds & Hout & _).
  unfold bootstrap. simpl. rewrite (for_each_app _ _ _ _ _ Hbefore). simpl.
  unfold bind at 1.
  assert (bootstrap_class limit c w1 =
            (set_csvs <[c := []]>
               (set_images_out (ensure_dir c) (set_landmarks_3d (ensure_dir c) w1)),
             Raise FileNotFoundError)) as ->.
  { unfold bootstrap_class, bind, modify, csv_open_w, listdir_in. simpl.
    by rewrite Hds, Hnone. }
  eexists. split_and!; [done|by simpl; rewrite lookup_insert_eq|].
  intros d _ Hnb Hne. destruct (Hout d Hnb) as (Hc & Hi & _). simpl.
  by rewrite lookup_insert_ne, ensure_dir_lookup.
Qed.

(** X17.  An image that [cv2.imread] cannot load ends the loop over the
    images of a class with [AttributeError], in the state reached after the
    images before it: nothing is written for it or for the images after
    it. *)
Theorem bootstrap_unloadable_image c before image_name after w w1 :
  for_each before (λ n, _bootstrap_internal n c) w = (w1, Return tt) →
  loaded_frame w c image_name = None →
  for_each (before ++ image_name :: after) (λ n, _bootstrap_internal n c) w
    = (w1, Raise AttributeError).
Proof.
  intros Hbefore Hload.
  assert (data_set w1 = data_set w) as Hds.
  { assert (respects (bootstrap_keeps [c]) (for_each before (λ n, _bootstrap_internal n c)))
      as Hr by (respects_for_each; intros n _; apply bootstrap_internal_keeps).
    specialize (Hr w). rewrite Hbefore in Hr. apply Hr. }
  rewrite (for_each_app _ _ _ _ _ Hbefore). simpl. unfold bind.
  by rewrite bootstrap_internal_eq, (loaded_frame_data_set w1 w), Hload.
Qed.

(** X18.  A limit that is at least the number of images leaves all of them;
    a negative limit [n] leaves all but the last [-n] of them. *)
Theorem image_names_of_bounds (n : Z) listing :
  (Z.of_nat (length (image_names_of None listing)) ≤ n →
     image_names_of (Some n) listing = image_names_of None listing) ∧
  (n < 0 →
     image_names_of (Some n) listing =
       take (length (image_names_of None listing) - Z.to_nat (- n))
            (image_names_of None listing)).
Proof.
  unfold image_names_of, slice_to. split; intros Hn.
  - destruct (Z.leb_spec 0 n); [|lia]. apply take_ge. lia.
  - destruct (Z.leb_spec 0 n); [lia|]. f_equal. lia.
Qed.
End bootstrap_more.

Lemma class_lines_app {V} (tree : gmap string (gmap string V)) before rest lines :
  class_lines tree before = (lines, Return tt) →
  class_lines tree (before ++ rest) =
    (lines ++ (class_lines tree rest).1, (class_lines tree rest).2).
Proof.
  revert lines. induction before as [|c before IH]; intros lines; simpl.
  - intros [= <-]. by destruct (class_lines tree rest).
  - destruct (tree !! c) as [dir|]; [|done].
    destruct (class_lines tree before) as [l o] eqn:Hb. intros [= <- ->].
    rewrite (IH l eq_refl). done.
Qed.

Lemma class_lines_present {V} (tree : gmap string (gmap string V)) classes :
  (∀ c, c ∈ classes → is_Some (tree !! c)) →
  class_lines tree classes =
    ((λ c, statistics_line c (n_images (default ∅ (tree !! c)))) <$> classes, Return tt).
Proof.
  induction classes as [|c classes IH]; intros Hall; simpl; [done|].
  destruct (Hall c) as [dir Hdir]; [by left|]. rewrite Hdir. simpl.
  rewrite IH; [done|]. intros d ?. apply Hall. by right.
Qed.

(** X19.  [_print_images_statistics] prints the heading and one line for
    each class in turn, and raises [FileNotFoundError] at the first class
    that has no folder in the tree, after the lines of the classes before
    it. *)
Theorem print_images_statistics_missing_folder {V}
    (tree : gmap string (gmap string V)) before c after :
  (∀ d, d ∈ before → is_Some (tree !! d)) →
  tree !! c = None →
  _print_images_statistics {| _pose_class_names := before ++ c :: after |} tree =
    ("Number of images per pose class:" ::
       ((λ d, statistics_line d (n_images (default ∅ (tree !! d)))) <$> before),
     Raise FileNotFoundError).
Proof.
  intros Hbefore Hc. unfold _print_images_statistics. simpl.
  rewrite (class_lines_app _ _ _ _ (class_lines_present _ _ Hbefore)).
  simpl. rewrite Hc. simpl. by rewrite app_nil_r.
Qed.


Lemma n_images_same {V1 V2} (d1 : gmap string V1) (d2 : gmap string V2) :
  (∀ k, hidden k = false → (is_Some (d1 !! k) ↔ is_Some (d2 !! k))) →
  n_images d1 = n_images d2.
Proof.
  intros Hsame. unfold n_images. apply Permutation_length, NoDup_Permutation.
  - apply NoDup_filter, NoDup_fst_map_to_list.
  - apply NoDup_filter, NoDup_fst_map_to_list.
  - intros k. rewrite !list_elem_of_filter, !elem_of_listing.
    split; intros [Hv ?]; (split; [done|]); by apply (Hsame k Hv).
Qed.

Section statistics.
Context `{Collaborators}.

Lemma bootstrap_class_out_from_data_set limit c d w w' :
  bootstrap_class limit d w = (w', Return tt) →
  out_from_data_set c w → out_from_data_set c w'.
Proof.
  intros Hrun Hq dir' k Hdir' Hk Hv.
  pose proof (bootstrap_class_keeps limit d w) as (Hds & Hother & _).
  rewrite Hrun in Hds, Hother. simpl in Hds, Hother. rewrite Hds.
  destruct (decide (c = d)) as [->|Hne].
  - apply bootstrap_class_writes in Hrun as (files & dir2 & ? & Hf & Hd2 & _ & Hin & Hout & _).
    assert (dir2 = dir') as -> by congruence.
    exists files. split; [done|].
    destruct (decide (k ∈ image_names_of limit (map_to_list files).*1)) as [Hkn|Hkn].
    + destruct (Hin k Hkn) as (frame & -> & _). eauto.
    + rewrite (Hout k Hkn) in Hk.
      destruct (images_out w !! d) as [dir|] eqn:Hdir; [|by destruct Hk].
      destruct (Hq dir k Hdir Hk Hv) as (files' & Hf' & ?). congruence.
  - destruct (Hother c) as (_ & Hi & _); [by intros ?%list_elem_of_singleton|].
    rewrite Hi in Hdir'. eauto.
Qed.

Lemma bootstrap_class_data_set_in_out c w w' :
  bootstrap_class None c w = (w', Return tt) → data_set_in_out c w'.
Proof.
  intros Hrun.
  pose proof (bootstrap_class_keeps None c w) as (Hds & _). rewrite Hrun in Hds. simpl in Hds.
  apply bootstrap_class_writes in Hrun as (files & dir' & ? & Hf & Hd' & _ & Hin & _).
  exists files, dir'. rewrite Hds. split_and!; [done..|].
  intros k Hk Hv. destruct (Hin k) as (frame & _ & _ & ->); [|done].
  apply elem_of_sorted_visible. split; [by apply elem_of_listing|done].
Qed.

Lemma bootstrap_class_keeps_data_set_in_out limit c d w w' :
  bootstrap_class limit d w = (w', Return tt) →
  data_set_in_out c w → data_set_in_out c w'.
Proof.
  intros Hrun (files & dir & Hf & Hd & Hin).
  pose proof (bootstrap_class_keeps limit d w) as (Hds & _ & Hgrow).
  rewrite Hrun in Hds, Hgrow. simpl in Hds, Hgrow.
  destruct (Hgrow _ _ Hd) as (dir' & Hd' & Hsub).
  exists files, dir'. rewrite Hds. split_and!; [done..|].
  intros k Hk Hv. apply elem_of_dom, Hsub, elem_of_dom. auto.
Qed.

(** X20.  When [bootstrap] without a limit returns, and the visible
    entries of the output folders were images of the data set before it,
    [print_images_out_statistics] prints what [print_images_in_statistics]
    prints, and both return. *)
Theorem statistics_agree_after_bootstrap self w w' :
  bootstrap self None w = (w', Return tt) →
  (∀ c, c ∈ _pose_class_names self → out_from_data_set c w) →
  print_images_out_statistics self w' = print_images_in_statistics self w ∧
  (print_images_in_statistics self w).2 = Return tt.
Proof.
  intros Hrun Hinv.
  assert (∀ c, c ∈ _pose_class_names self → data_set_in_out c w' ∧ out_from_data_set c w')
    as Hall.
  { intros c Hc. split.
    - revert c Hc. eapply (for_each_establishes _ data_set_in_out), Hrun.
      + intros ???. apply bootstrap_class_data_set_in_out.
      + intros c d w0 w1 _. apply bootstrap_class_keeps_data_set_in_out.
    - specialize (Hinv c Hc). revert Hinv.
      eapply (for_each_preserves _ (out_from_data_set c)), Hrun.
      intros d w0 w1. apply bootstrap_class_out_from_data_set. }
  assert (data_set w' = data_set w) as Hds.
  { by apply bootstrap_leaves_alone in Hrun as (? & _). }
  unfold print_images_out_statistics, print_images_in_statistics, _print_images_statistics.
  rewrite (class_lines_present (images_out w')), (class_lines_present (data_set w)).
  - split; [|done]. do 2 f_equal. apply list_fmap_ext. intros _ c Hc%list_elem_of_lookup_2.
    destruct (Hall c Hc) as ((files & dir & Hf & Hd & Hin) & Hq).
    rewrite <- Hds, Hf, Hd. simpl. f_equal. apply n_images_same.
    intros k Hv. split; [|by auto].
    intros Hk. destruct (Hq dir k Hd Hk Hv) as (files' & Hf' & ?). congruence.
  - intros c Hc. destruct (Hall c Hc) as ((files & ? & Hf & _) & _). rewrite <- Hds. eauto.
  - intros c Hc. destruct (Hall c Hc) as ((? & dir & _ & Hd & _) & _). eauto.
Qed.
End statistics.

(** ** More sample runs *)

Lemma align_images_and_csvs_leaves_alone_witness :
  align_images_and_csvs squat_only scenario = (scenario_aligned, Return tt) ∧
  only_classes ["squat"] scenario scenario_aligned ∧
  only_removes scenario scenario_aligned.
Proof.
  assert (align_images_and_csvs squat_only scenario = (scenario_aligned, Return tt)) as Hrun
    by (vm_compute; reflexivity).
  split; [exact Hrun|].
  exact (align_images_and_csvs_leaves_alone squat_only scenario scenario_aligned _ Hrun).
Defined.

Lemma align_class_rows_exact_witness :
  align_class "squat" scenario = (scenario_aligned, Return tt) ∧
  ∃ rows', csvs scenario_aligned !! "squat" = Some rows' ∧
    (["lost.jpg"; "2.5"] ∈ rows' ↔
     ["lost.jpg"; "2.5"] ∈ [["a.jpg"; "1.5"]; []; ["lost.jpg"; "2.5"]] ∧
     ["lost.jpg"; "2.5"] ≠ [] ∧
     path_exists (Some {[ "a.jpg" := File frame0; "b.jpg" := File frame1;
                          ".DS_Store" := File frame0 ]})
       (row_name ["lost.jpg"; "2.5"]) = Return true).
Proof.
  assert (align_class "squat" scenario = (scenario_aligned, Return tt)) as Hrun
    by (vm_compute; reflexivity).
  split; [exact Hrun|].
  apply (align_class_rows_exact "squat" scenario scenario_aligned _ _ _ Hrun);
    vm_compute; reflexivity.
Defined.

Lemma align_class_keeps_nameless_rows_witness :
  align_class "squat" nameless = (nameless_aligned, Return tt) ∧
  ∃ rows', csvs nameless_aligned !! "squat" = Some rows' ∧ [EmptyString; "1.5"] ∈ rows'.
Proof.
  assert (align_class "squat" nameless = (nameless_aligned, Return tt)) as Hrun
    by (vm_compute; reflexivity).
  split; [exact Hrun|].
  apply (align_class_keeps_nameless_rows "squat" nameless nameless_aligned
           [[EmptyString; "1.5"]] _ Hrun).
  - vm_compute; reflexivity.
  - left.
  - discriminate.
  - left. reflexivity.
Defined.

Lemma align_class_missing_folder_witness :
  csvs no_folder !! "squat" = Some [["a.jpg"; "1.5"]] ∧
  images_out no_folder !! "squat" = None ∧
  align_class "squat" no_folder = (set_csvs <["squat" := []]> no_folder, Raise FileNotFoundError).
Proof.
  assert (csvs no_folder !! "squat" = Some [["a.jpg"; "1.5"]]) as Hc by (vm_compute; reflexivity).
  assert (images_out no_folder !! "squat" = None) as Hd by (vm_compute; reflexivity).
  split; [exact Hc|]. split; [exact Hd|].
  apply (align_class_missing_folder "squat" no_folder _ Hc Hd).
  vm_compute. repeat constructor.
Defined.

Lemma align_class_stray_directory_witness :
  ∃ w' dir',
    align_class "squat" with_subdir = (w', Raise IsADirectoryError) ∧
    csvs w' !! "squat" =
      Some (kept_rows (Some {[ "a.jpg" := File frame0; "old" := Dir ]}) [["a.jpg"; "1.5"]]) ∧
    images_out w' !! "squat" = Some dir' ∧ dir' !! "old" = Some Dir.
Proof.
  apply (align_class_stray_directory "squat" with_subdir [["a.jpg"; "1.5"]]
           {[ "a.jpg" := File frame0; "old" := Dir ]} "old").
  - vm_compute; reflexivity.
  - vm_compute; reflexivity.
  - vm_compute. repeat constructor.
  - vm_compute; reflexivity.
  - vm_compute. intros Hin. apply list_elem_of_singleton in Hin. discriminate.
Defined.

Lemma align_images_and_csvs_stops_witness :
  align_images_and_csvs squat_only scenario = (scenario_aligned, Return tt) ∧
  align_class "lunge" scenario_aligned = (scenario_aligned, Raise FileNotFoundError) ∧
  align_images_and_csvs {| _pose_class_names := ["squat"] ++ "lunge" :: ["plank"] |} scenario
    = (scenario_aligned, Raise FileNotFoundError) ∧
  ∀ d, d ∈ ["plank"] → d ∉ ["squat"] → d ≠ "lunge" →
       csvs scenario_aligned !! d = csvs scenario !! d ∧
       images_out scenario_aligned !! d = images_out scenario !! d.
Proof.
  assert (align_images_and_csvs squat_only scenario = (scenario_aligned, Return tt)) as H1
    by (vm_compute; reflexivity).
  assert (align_class "lunge" scenario_aligned = (scenario_aligned, Raise FileNotFoundError))
    as H2 by (vm_compute; reflexivity).
  split; [exact H1|]. split; [exact H2|].
  exact (align_images_and_csvs_stops ["squat"] "lunge" ["plank"] scenario
           scenario_aligned scenario_aligned FileNotFoundError H1 H2).
Defined.

Lemma remove_outliers_leaves_alone_witness :
  remove_outliers [outlier_b] scenario = (scenario_without_b, Return tt) ∧
  (∀ s, s ∈ samples_of [outlier_b] → plain (class_name s) = true) ∧
  csvs scenario_without_b = csvs scenario ∧
  only_classes (class_name <$> samples_of [outlier_b]) scenario scenario_without_b ∧
  only_removes scenario scenario_without_b.
Proof.
  assert (remove_outliers [outlier_b] scenario = (scenario_without_b, Return tt)) as Hrun
    by (vm_compute; reflexivity).
  assert (Return tt ≠ @Unmodelled unit) as Hend by discriminate.
  assert (∀ s, s ∈ samples_of [outlier_b] → plain (class_name s) = true) as Hplain.
  { intros s Hs. apply list_elem_of_singleton in Hs. subst s. reflexivity. }
  split; [exact Hrun|]. split; [exact Hplain|].
  exact (remove_outliers_leaves_alone [outlier_b] scenario scenario_without_b _
           Hrun Hend Hplain).
Defined.

Lemma remove_outliers_twice_listed_witness :
  remove_outliers [outlier_b] scenario = (scenario_without_b, Return tt) ∧
  outlier_b ∈ [outlier_b] ∧
  ∃ e, remove_outliers ([outlier_b] ++ outlier_b :: [outlier_a]) scenario
         = (scenario_without_b, Raise e) ∧
       (e = FileNotFoundError ∨ e = NotADirectoryError).
Proof.
  assert (remove_outliers [outlier_b] scenario = (scenario_without_b, Return tt)) as Hrun
    by (vm_compute; reflexivity).
  assert (outlier_b ∈ [outlier_b]) as Hin by left.
  split; [exact Hrun|]. split; [exact Hin|].
  exact (remove_outliers_twice_listed [outlier_b] outlier_b [outlier_a]
           scenario scenario_without_b Hrun Hin).
Defined.

Lemma remove_outliers_directory_witness :
  remove_outliers [] with_subdir = (with_subdir, Return tt) ∧
  plain "old" = true ∧
  remove_outliers ([] ++ outlier_old :: [outlier_a]) with_subdir
    = (with_subdir, Raise IsADirectoryError).
Proof.
  assert (remove_outliers [] with_subdir = (with_subdir, Return tt)) as Hrun by reflexivity.
  assert (plain (name (outlier_sample outlier_old)) = true) as Hp by reflexivity.
  split; [exact Hrun|]. split; [exact Hp|].
  apply (remove_outliers_directory [] outlier_old [outlier_a] with_subdir with_subdir
           {[ "a.jpg" := File frame0; "old" := Dir ]} Hrun Hp);
    vm_compute; reflexivity.
Defined.

Lemma remove_outliers_removes_exactly_witness :
  ∃ w', remove_outliers [outlier_b; outlier_a] scenario = (w', Return tt) ∧
        ∀ c, images_out w' !! c =
             without_samples (samples_of [outlier_b; outlier_a]) c <$> images_out scenario !! c.
Proof.
  apply (remove_outliers_removes_exactly [outlier_b; outlier_a] scenario).
  - vm_compute. repeat constructor; intros Hin;
      repeat (apply elem_of_cons in Hin as [Hin|Hin]; [discriminate|]);
      by apply elem_of_nil in Hin.
  - intros s Hs. vm_compute in Hs.
    apply elem_of_cons in Hs as [->|Hs]; [|apply elem_of_cons in Hs as [->|Hs]].
    + split; [reflexivity|]. eexists _, _. split; vm_compute; reflexivity.
    + split; [reflexivity|]. eexists _, _. split; vm_compute; reflexivity.
    + by apply elem_of_nil in Hs.
Defined.

Lemma bootstrap_leaves_alone_witness :
  @bootstrap tracker squat_only None fresh =
    ((@bootstrap tracker squat_only None fresh).1, Return tt) ∧
  bootstrap_keeps ["squat"] fresh (@bootstrap tracker squat_only None fresh).1.
Proof.
  assert (@bootstrap tracker squat_only None fresh =
          ((@bootstrap tracker squat_only None fresh).1, Return tt)) as Hrun
    by (vm_compute; reflexivity).
  split; [exact Hrun|].
  exact (@bootstrap_leaves_alone tracker squat_only None fresh _ _ Hrun).
Defined.

Lemma bootstrap_class_output_witness :
  @bootstrap_class tracker None "squat" opened_subdir =
    ((@bootstrap_class tracker None "squat" opened_subdir).1, Return tt) ∧
  images_out (@bootstrap_class tracker None "squat" opened_subdir).1 !! "squat" =
    Some {[ "a.jpg" := File (cvtColor frame0); "b.jpg" := Dir ]} ∧
  ∃ files dir',
    data_set opened_subdir !! "squat" = Some files ∧
    images_out (@bootstrap_class tracker None "squat" opened_subdir).1 !! "squat"
      = Some dir' ∧
    (∀ n, n ∈ image_names_of None (map_to_list files).*1 →
       ∃ frame, files !! n = Some (Some frame) ∧ @encodable tracker "squat" n = true ∧
         dir' !! n = Some (match images_out opened_subdir !! "squat" ≫= (.!! n) with
                           | Some Dir => Dir
                           | _ => File (@encoded tracker "squat" n (cvtColor frame))
                           end)) ∧
    (∀ k, k ∉ image_names_of None (map_to_list files).*1 →
       dir' !! k = images_out opened_subdir !! "squat" ≫= (.!! k)).
Proof.
  assert (@bootstrap_class tracker None "squat" opened_subdir =
          ((@bootstrap_class tracker None "squat" opened_subdir).1, Return tt)) as Hrun
    by (vm_compute; reflexivity).
  split; [exact Hrun|]. split; [vm_compute; reflexivity|].
  exact (@bootstrap_class_output tracker None "squat" opened_subdir _ Hrun).
Defined.

Lemma bootstrap_class_csv_witness :
  @bootstrap_class tracker None "squat" fresh =
    ((@bootstrap_class tracker None "squat" fresh).1, Return tt) ∧
  ∃ rows' dir',
    csvs (@bootstrap_class tracker None "squat" fresh).1 !! "squat" = Some rows' ∧
    images_out (@bootstrap_class tracker None "squat" fresh).1 !! "squat" = Some dir' ∧
    Forall (λ r, length r = 100%nat) rows' ∧
    StronglySorted String.le (row_names rows') ∧
    NoDup (row_names rows') ∧
    (∀ n, n ∈ row_names rows' → is_Some (dir' !! n)).
Proof.
  assert (@bootstrap_class tracker None "squat" fresh =
          ((@bootstrap_class tracker None "squat" fresh).1, Return tt)) as Hrun
    by (vm_compute; reflexivity).
  split; [exact Hrun|].
  exact (@bootstrap_class_csv tracker None "squat" fresh _ Hrun).
Defined.

Lemma fresh_names_plain n :
  is_Some (({[ "b.jpg" := Some frame1; "a.jpg" := Some frame0; ".DS_Store" := None ]}
              : gmap string (option image)) !! n) →
  plain n = true ∧ no_carriage_return n = true.
Proof.
  intros [v Hv]. apply elem_of_map_to_list in Hv. vm_compute in Hv.
  repeat (apply elem_of_cons in Hv as [Hv|Hv]; [by injection Hv as -> _|]).
  by apply elem_of_nil in Hv.
Defined.

Lemma bootstrap_then_align_witness :
  ∃ rows dir,
    csvs (@bootstrap_class tracker None "squat" fresh).1 !! "squat" = Some rows ∧
    csvs (align_class "squat" (@bootstrap_class tracker None "squat" fresh).1).1 !! "squat"
      = Some rows ∧
    images_out (align_class "squat" (@bootstrap_class tracker None "squat" fresh).1).1
      !! "squat" = Some dir ∧
    strict_bijection rows dir.
Proof.
  apply (@bootstrap_then_align tracker None "squat" fresh _ _
           {[ "b.jpg" := Some frame1; "a.jpg" := Some frame0; ".DS_Store" := None ]}).
  - vm_compute; reflexivity.
  - vm_compute; reflexivity.
  - exact fresh_names_plain.
  - vm_compute; reflexivity.
Defined.

Lemma bootstrap_missing_class_folder_witness :
  data_set fresh !! "lunge" = None ∧
  ∃ w2, @bootstrap tracker {| _pose_class_names := ["squat"] ++ "lunge" :: ["plank"] |}
          None fresh = (w2, Raise FileNotFoundError) ∧
        csvs w2 !! "lunge" = Some [] ∧
        ∀ d, d ∈ ["plank"] → d ∉ ["squat"] → d ≠ "lunge" →
             csvs w2 !! d = csvs fresh !! d ∧ images_out w2 !! d = images_out fresh !! d.
Proof.
  assert (data_set fresh !! "lunge" = None) as Hnone by (vm_compute; reflexivity).
  split; [exact Hnone|].
  apply (@bootstrap_missing_class_folder tracker None ["squat"] "lunge" ["plank"] fresh
           (@bootstrap tracker squat_only None fresh).1);
    [vm_compute; reflexivity|exact Hnone].
Defined.

Lemma bootstrap_unloadable_image_witness :
  loaded_frame opened "squat" ".DS_Store" = None ∧
  for_each (["a.jpg"] ++ ".DS_Store" :: ["b.jpg"])
    (λ n, @_bootstrap_internal tracker n "squat") opened
    = ((@_bootstrap_internal tracker "a.jpg" "squat" opened).1, Raise AttributeError).
Proof.
  assert (loaded_frame opened "squat" ".DS_Store" = None) as Hload by (vm_compute; reflexivity).
  split; [exact Hload|].
  apply (@bootstrap_unloadable_image tracker "squat" ["a.jpg"] ".DS_Store" ["b.jpg"] opened);
    [vm_compute; reflexivity|exact Hload].
Defined.

Lemma image_names_of_bounds_witness :
  image_names_of (Some 7) ["b.jpg"; ".DS_Store"; "a.jpg"] =
    image_names_of None ["b.jpg"; ".DS_Store"; "a.jpg"] ∧
  image_names_of (Some (-1)) ["b.jpg"; ".DS_Store"; "a.jpg"] =
    take (length (image_names_of None ["b.jpg"; ".DS_Store"; "a.jpg"]) - Z.to_nat (- -1))
         (image_names_of None ["b.jpg"; ".DS_Store"; "a.jpg"]).
Proof.
  split.
  - apply (proj1 (image_names_of_bounds 7 ["b.jpg"; ".DS_Store"; "a.jpg"])).
    vm_compute. discriminate.
  - apply (proj2 (image_names_of_bounds (-1) ["b.jpg"; ".DS_Store"; "a.jpg"])). lia.
Defined.

Lemma print_images_statistics_missing_folder_witness :
  _print_images_statistics {| _pose_class_names := ["squat"] ++ "lunge" :: ["plank"] |}
    (images_out scenario) =
    (["Number of images per pose class:"; "  squat: 2"], Raise FileNotFoundError).
Proof.
  rewrite (print_images_statistics_missing_folder (images_out scenario)
             ["squat"] "lunge" ["plank"]).
  - vm_compute; reflexivity.
  - intros d Hd. apply list_elem_of_singleton in Hd. subst d. vm_compute. eauto.
  - vm_compute; reflexivity.
Defined.

Lemma statistics_agree_after_bootstrap_witness :
  print_images_out_statistics squat_only (@bootstrap tracker squat_only None fresh).1 =
    print_images_in_statistics squat_only fresh ∧
  (print_images_in_statistics squat_only fresh).2 = Return tt.
Proof.
  apply (@statistics_agree_after_bootstrap tracker squat_only fresh).
  - vm_compute; reflexivity.
  - intros c _ dir k Hdir. vm_compute in Hdir. discriminate.
Defined.
